(** * smart-browser-detection: the classification engine of [src/index.ts]

    A shallow embedding of the class [SmartBrowserDetection] and the
    properties of it that the specification states.

    Conventions of the embedding.
    - A JavaScript string is a [string] of the Standard Library: a
      sequence of code units below 256 (the Latin-1 range; user-agent
      and vendor strings are written in it).
    - A JavaScript number that holds a confidence or a score is a
      binary64 [float], with the primitive operations of the kernel, so
      that [count * confidence] rounds as it does in the engine.  Counts,
      widths and the clock are integers ([Z]).
    - The host objects ([window], [navigator], [document]) are records
      whose optional members are [option]s, following the interfaces the
      source declares.
    - Exceptions: on a host of the declared types no statement of the
      class throws outside a [try].  The module [Untyped] embeds
      [detectBrowser] again over globals that may be missing, where a
      read may throw; the two agree on the hosts of the declared types.
    - The instance state (the [cache] map) is passed explicitly: a method
      that writes it returns the new instance beside its result. *)

From Stdlib Require Import List String Ascii Bool ZArith Lia.
From Stdlib Require Import Floats.PrimFloat Floats.SpecFloat Floats.FloatOps
  Floats.FloatAxioms.
From Stdlib Require Numbers.Cyclic.Int63.Uint63.
Import ListNotations.

Set Warnings "-inexact-float".

Local Open Scope string_scope.
Local Open Scope bool_scope.

(** ** Strings *)

Module JsString.

(** Code unit of a character. *)
Definition code (c : ascii) : N := N_of_ascii c.

Definition in_range (lo hi : N) (c : ascii) : bool :=
  (N.leb lo (code c) && N.leb (code c) hi)%N.

(** [A-Z], and the upper-case letters of Latin-1 (U+00C0..U+00DE
    without the multiplication sign U+00D7). *)
Definition is_upper (c : ascii) : bool :=
  in_range 65 90 c
  || (in_range 192 222 c && negb (N.eqb (code c) 215)).

Definition lower_char (c : ascii) : ascii :=
  if is_upper c then ascii_of_N (code c + 32) else c.

(** [String.prototype.toLowerCase]. *)
Fixpoint toLowerCase (s : string) : string :=
  match s with
  | EmptyString => EmptyString
  | String c s' => String (lower_char c) (toLowerCase s')
  end.

(** [s.includes(sub)]: [sub] occurs in [s] at some position. *)
Fixpoint includes (s sub : string) : bool :=
  prefix sub s
  || match s with
     | EmptyString => false
     | String _ s' => includes s' sub
     end.

(** [keywords.some(k => s.includes(k))]. *)
Definition includes_some (s : string) (keywords : list string) : bool :=
  existsb (includes s) keywords.

(** A string is truthy when it is not empty. *)
Definition truthy (s : string) : bool := negb (String.eqb s "").

(** [s.replace(/_/g, '.')]. *)
Fixpoint replace_underscores (s : string) : string :=
  match s with
  | EmptyString => EmptyString
  | String c s' =>
      String (if Ascii.eqb c "_" then "."%char else c) (replace_underscores s')
  end.

End JsString.

(** ** Regular expressions

    The patterns of the source are built from four pieces: a literal read
    without regard to case (flag [i]), an alternation of literals, the
    class [\s], and a capture of the shape [\d+ sep \d+].  Each piece is a
    function on the rest of the input; a pattern is tried at every
    position from the left, as [String.prototype.match] does. *)

Module RegExp.

Import JsString.

Definition is_digit (c : ascii) : bool := in_range 48 57 c.

(** [\s] on code units below 256: TAB, LF, VT, FF, CR, space, NBSP. *)
Definition is_space (c : ascii) : bool :=
  in_range 9 13 c || N.eqb (code c) 32 || N.eqb (code c) 160.

(** Case folding of flag [i]: only the ASCII letters fold onto the ASCII
    letters of a pattern. *)
Definition fold_char (c : ascii) : ascii :=
  if in_range 65 90 c then ascii_of_N (code c + 32) else c.

(** A literal at the start of the input; the literal is in lower case.
    Returns the input after it. *)
Fixpoint lit (l s : string) : option string :=
  match l with
  | EmptyString => Some s
  | String a l' =>
      match s with
      | EmptyString => None
      | String c s' => if Ascii.eqb (fold_char c) a then lit l' s' else None
      end
  end.

(** [(?:l1|l2|...)] followed by [k]: the first alternative after which
    the rest of the pattern matches. *)
Fixpoint alt {A} (ls : list string) (k : string -> option A) (s : string)
  : option A :=
  match ls with
  | [] => None
  | l :: ls' =>
      match match lit l s with Some r => k r | None => None end with
      | Some a => Some a
      | None => alt ls' k s
      end
  end.

(** [\s] followed by [k]. *)
Definition space {A} (k : string -> option A) (s : string) : option A :=
  match s with
  | String c s' => if is_space c then k s' else None
  | EmptyString => None
  end.

(** The longest run of digits at the start of the input, and the rest. *)
Fixpoint span_digits (s : string) : string * string :=
  match s with
  | String c s' =>
      if is_digit c
      then let (d, r) := span_digits s' in (String c d, r)
      else (EmptyString, s)
  | EmptyString => (EmptyString, EmptyString)
  end.

(** [(\d+)]: greedy, at least one digit. *)
Definition digits (s : string) : option (string * string) :=
  let (d, r) := span_digits s in
  if truthy d then Some (d, r) else None.

(** [(\d+ sep \d+)].  Giving back digits of the first run never helps:
    the character after a shorter run is a digit, not [sep]. *)
Definition two_part (sep : ascii) (s : string) : option (string * string) :=
  match digits s with
  | Some (a, String c r) =>
      if Ascii.eqb c sep then
        match digits r with
        | Some (b, r') => Some (a ++ String sep b, r')
        | None => None
        end
      else None
  | _ => None
  end.

(** The capture of a pattern that ends with its group. *)
Definition capture (m : string -> option (string * string)) (s : string)
  : option string :=
  option_map fst (m s).

(** The leftmost position at which [m] matches. *)
Fixpoint search {A} (m : string -> option A) (s : string) : option A :=
  match m s with
  | Some a => Some a
  | None =>
      match s with
      | EmptyString => None
      | String _ s' => search m s'
      end
  end.

(** [re.test(s)] for a literal pattern. *)
Definition test (l s : string) : bool :=
  match search (lit l) s with Some _ => true | None => false end.

End RegExp.

Import JsString.

(** ** Type definitions *)

Inductive DetectionMethod :=
| M_apiDetection
| M_vendorDetection
| M_userAgentDetection
| M_cssDetection.

Inductive BrowserType :=
| Chrome | Firefox | Safari | Edge | Opera | InternetExplorer | Unknown.

Inductive PlatformType := Desktop | Mobile | Tablet.

Inductive OSType := Windows | macOS | Linux | Android | iOS | OS_Unknown.

Inductive EngineType := Blink | Gecko | WebKit | Trident | Engine_Unknown.

Definition BrowserType_eqb (a b : BrowserType) : bool :=
  match a, b with
  | Chrome, Chrome | Firefox, Firefox | Safari, Safari | Edge, Edge
  | Opera, Opera | InternetExplorer, InternetExplorer | Unknown, Unknown => true
  | _, _ => false
  end.

Record DetectionMethodResult := mkMethodResult {
  mr_browser : BrowserType;
  mr_confidence : float;
  mr_method : DetectionMethod
}.

Record EngineInfo := mkEngineInfo {
  ei_engine : EngineType;
  ei_version : string
}.

Record OSInfo := mkOSInfo {
  oi_os : OSType;
  oi_osVersion : string
}.

Record CacheStats := mkCacheStats {
  size : Z;
  keys : list string
}.

Record BrowserDetectionResult := mkResult {
  browser : BrowserType;
  browserVersion : string;
  engine : EngineType;
  engineVersion : string;
  platform : option PlatformType;      (* [None] is the string 'Unknown' *)
  os : OSType;
  osVersion : string;
  isMobile : bool;
  isTablet : bool;
  isDesktop : bool;
  confidence : float;
  detectionMethods : list DetectionMethod;
  userAgent : string;
  vendor : string;
  timestamp : Z
}.

(** ** The host: [window], [navigator], [document] *)

(** [window.chrome]: [runtime?: { onConnect?: EventTarget }] and
    [webstore?]; a member that is an object is present or not. *)
Record ChromeRuntime := mkRuntime { onConnect : bool }.
Record ChromeAPI := mkChrome {
  runtime : option ChromeRuntime;
  webstore : bool
}.

Record SafariAPI := mkSafari { pushNotification : bool }.

(** [window.opera]: [version?: string]. *)
Record OperaAPI := mkOpera { opera_version : option string }.

Record Brand := mkBrand { brand : string; brand_version : string }.

Record UserAgentData := mkUAData { brands : option (list Brand) }.

Record Window := mkWindow {
  chrome : option ChromeAPI;
  InstallTrigger : option bool;
  safari : option SafariAPI;
  opera : option OperaAPI;
  innerWidth : Z;
  ontouchstart : bool                  (* ['ontouchstart' in window] *)
}.

Record Navigator := mkNavigator {
  nav_userAgent : string;
  nav_vendor : string;
  maxTouchPoints : Z;
  userAgentData : option UserAgentData
}.

(** What the scratch element of [cssDetection] shows.  Building and
    attaching the element may throw (there is no [document.body] while
    the head of a page is parsed); otherwise each vendor-prefixed
    property, once assigned, reads back non-empty or not. *)
Inductive StyleProbe :=
| ProbeThrows
| ProbeReads (webkitTransform_set webkitAppearance_set : bool).

Record Document := mkDocument {
  documentMode : option Z;
  scratch_element : StyleProbe
}.

Record Host := mkHost {
  window : Window;
  navigator : Navigator;
  document : Document;
  Date_now : Z
}.

(** ** Numbers *)

Module JsNumber.

Local Open Scope float_scope.

(** [x || 0] on a number that may be missing: zero, NaN and
    [undefined] are falsy. *)
Definition or_zero (x : option float) : float :=
  match x with
  | Some v => if is_zero v || is_nan v then 0%float else v
  | None => 0%float
  end.

(** [Math.max(a, b)]: NaN if either is, and [+0] above [-0]. *)
Definition Math_max (a b : float) : float :=
  if is_nan a || is_nan b then nan
  else if ltb a b then b
  else if ltb b a then a
  else if get_sign a then b else a.

(** An integer below 2^53 as a number. *)
Definition of_count (n : Z) : float := of_uint63 (Uint63.of_Z n).

End JsNumber.

(** A number is truthy unless it is zero (or NaN, which an integer is not). *)
Definition truthy_number (n : option Z) : bool :=
  match n with Some v => negb (Z.eqb v 0) | None => false end.

(** ** Maps

    A [Map] and a plain object used as a record of counters list their
    keys in insertion order; writing a key that is present replaces its
    value in place.  (The keys of the plain objects are browser names,
    none of which is an array index, so no key is moved to the front.) *)

Module JsMap.
Section WithKey.
Context {K V : Type} (eqb : K -> K -> bool).

Definition t := list (K * V).

Definition empty : t := [].

Fixpoint get (k : K) (m : t) : option V :=
  match m with
  | [] => None
  | (k', v) :: m' => if eqb k k' then Some v else get k m'
  end.

Definition has (k : K) (m : t) : bool :=
  match get k m with Some _ => true | None => false end.

Fixpoint set (k : K) (v : V) (m : t) : t :=
  match m with
  | [] => [(k, v)]
  | (k', v') :: m' =>
      if eqb k k' then (k, v) :: m' else (k', v') :: set k v m'
  end.

Definition map_size (m : t) : Z := Z.of_nat (List.length m).

Definition map_keys (m : t) : list K := List.map fst m.
End WithKey.
Arguments t : clear implicits.
End JsMap.

(** ** The instance *)

Record SmartBrowserDetection := mkInstance {
  cache : JsMap.t string BrowserDetectionResult;
  methods : list DetectionMethod       (* the field [detectionMethods] *)
}.

Definition constructor : SmartBrowserDetection :=
  {| cache := JsMap.empty;
     methods := [M_apiDetection; M_vendorDetection;
                 M_userAgentDetection; M_cssDetection] |}.

(** [this.regexPatterns]: each pattern gives the text of its group(s) at
    the leftmost match, or [None] when [match] returns [null]. *)
Module regexPatterns.
Import RegExp.

Definition then_lit {A} (l : string) (k : string -> option A) : string -> option A :=
  alt [l] k.

Definition dotted : string -> option string := capture (two_part ".").

(** [/chrome\/(\d+\.\d+)/i] *)
Definition chrome : string -> option string :=
  search (then_lit "chrome/" dotted).
(** [/firefox\/(\d+\.\d+)/i] *)
Definition firefox : string -> option string :=
  search (then_lit "firefox/" dotted).
(** [/version\/(\d+\.\d+)/i] *)
Definition safari : string -> option string :=
  search (then_lit "version/" dotted).
(** [/edg\/(\d+\.\d+)/i] *)
Definition edge : string -> option string :=
  search (then_lit "edg/" dotted).
(** [/(?:opera|opr)\/(\d+\.\d+)/i] *)
Definition opera : string -> option string :=
  search (alt ["opera"; "opr"] (then_lit "/" dotted)).
(** [/(?:msie\s(\d+\.\d+)|rv:(\d+\.\d+))/i]: groups 1 and 2. *)
Definition ie : string -> option (option string * option string) :=
  search (fun s =>
    match then_lit "msie" (space dotted) s with
    | Some v => Some (Some v, None)
    | None =>
        match then_lit "rv:" dotted s with
        | Some v => Some (None, Some v)
        | None => None
        end
    end).
(** [/android\s(\d+\.\d+)/i] *)
Definition android : string -> option string :=
  search (then_lit "android" (space dotted)).
(** [/os\s(\d+_\d+)/i] *)
Definition ios : string -> option string :=
  search (then_lit "os" (space (capture (two_part "_")))).

(** The literal among [ls] at the start of the input. *)
Fixpoint one_of (ls : list string) (s : string) : option (string * string) :=
  match ls with
  | [] => None
  | l :: ls' =>
      match lit l s with
      | Some r => Some (l, r)
      | None => one_of ls' s
      end
  end.

(** [/windows nt (10\.0|6\.3|6\.2|6\.1)/i] *)
Definition windows : string -> option string :=
  search (then_lit "windows nt " (capture (one_of ["10.0"; "6.3"; "6.2"; "6.1"]))).
(** [/mac os x 10_(\d+)/i] *)
Definition macos : string -> option string :=
  search (then_lit "mac os x 10_" (capture digits)).
End regexPatterns.

(** [parseInt] of a run of decimal digits.  The source compares the
    result with 13, 14 and 15 only, and rounding to a binary64 number
    keeps the order of an integer with those. *)
Definition digit_value (c : ascii) : N := (N_of_ascii c - 48)%N.

Fixpoint parseInt_from (acc : N) (s : string) : N :=
  match s with
  | String c s' =>
      if RegExp.is_digit c then parseInt_from (acc * 10 + digit_value c)%N s'
      else acc
  | EmptyString => acc
  end.

Definition parseInt (s : string) : N := parseInt_from 0%N s.

(** ** The detection methods *)

Section Methods.

Variable host : Host.

Let win := window host.
Let nav := navigator host.

(** Assigning [result.browser] and [result.confidence]. *)
Definition assign (r : DetectionMethodResult) (b : BrowserType) (c : float)
  : DetectionMethodResult :=
  {| mr_browser := b; mr_confidence := c; mr_method := mr_method r |}.

Definition chrome_runtime_onConnect : bool :=
  match chrome win with
  | Some c => match runtime c with Some r => onConnect r | None => false end
  | None => false
  end.

Definition chrome_webstore : bool :=
  match chrome win with Some c => webstore c | None => false end.

Definition safari_pushNotification : bool :=
  match safari win with Some s => pushNotification s | None => false end.

Definition opera_has_version : bool :=
  match opera win with
  | Some o => match opera_version o with Some v => truthy v | None => false end
  | None => false
  end.

(** API-based detection using browser-specific APIs. *)
Definition apiDetection : DetectionMethodResult :=
  let result := mkMethodResult Unknown 0%float M_apiDetection in
  if chrome_runtime_onConnect then assign result Chrome 0.95%float
  else if safari_pushNotification then assign result Safari 0.95%float
  else
    match match userAgentData nav with Some d => brands d | None => None end with
    | Some brands =>
        let hasEdge :=
          existsb (fun b => String.eqb (brand b) "Microsoft Edge") brands in
        if hasEdge then assign result Edge 0.95%float else result
    | None =>
        if opera_has_version then assign result Opera 0.9%float
        else if truthy_number (documentMode (document host))
             then assign result InternetExplorer 0.95%float
             else result
    end.

(** Vendor-based detection using [navigator.vendor]. *)
Definition vendorDetection : DetectionMethodResult :=
  let result := mkMethodResult Unknown 0%float M_vendorDetection in
  let vendor := toLowerCase (nav_vendor nav) in
  let ua := toLowerCase (nav_userAgent nav) in
  if includes ua "edg" then assign result Edge 0.9%float
  else if includes vendor "google" then assign result Chrome 0.9%float
  else if includes vendor "apple" then assign result Safari 0.9%float
  else if includes vendor "mozilla" then assign result Firefox 0.8%float
  else if String.eqb vendor "" then
    if includes ua "edg" || includes ua "edge" then assign result Edge 0.8%float
    else if includes ua "android" && includes ua "chrome" && includes ua "safari"
         then assign result Edge 0.7%float
         else result
  else result.

(** User agent detection. *)
Definition userAgentDetection : DetectionMethodResult :=
  let result := mkMethodResult Unknown 0%float M_userAgentDetection in
  let ua := toLowerCase (nav_userAgent nav) in
  if includes ua "edg" then assign result Edge 0.85%float
  else if includes ua "chrome" && negb (includes ua "edg") && negb (includes ua "opr")
    then
      let result := assign result Chrome 0.8%float in
      if includes ua "crios" then assign result Chrome 0.95%float else result
  else if includes ua "safari" && includes (toLowerCase (nav_vendor nav)) "google"
    then assign result Chrome 0.85%float
  else if includes ua "edge" then assign result Edge 0.85%float
  else if includes ua "android" && includes ua "chrome" && includes ua "safari"
          && negb (includes ua "firefox") && String.eqb (nav_vendor nav) ""
    then assign result Edge 0.8%float
  else if includes ua "firefox" || includes ua "fxios"
    then assign result Firefox 0.85%float
  else if includes ua "safari" && negb (includes ua "chrome")
    then assign result Safari 0.7%float
  else if includes ua "opr" || includes ua "opera"
    then assign result Opera 0.85%float
  else if includes ua "msie" || includes ua "trident"
    then assign result InternetExplorer 0.95%float
  else result.

(** CSS-based detection.  The body of the [try] runs to its end or is
    left at the first statements, before [result] is assigned; the
    [catch] swallows the exception and [result] is returned as it is. *)
Definition cssDetection : DetectionMethodResult :=
  let result := mkMethodResult Unknown 0%float M_cssDetection in
  match scratch_element (document host) with
  | ProbeThrows => result
  | ProbeReads webkitTransform_set webkitAppearance_set =>
      let result :=
        if webkitTransform_set && chrome_webstore
        then assign result Chrome 0.7%float else result in
      let result :=
        if webkitAppearance_set && safari_pushNotification
        then assign result Safari 0.7%float else result in
      let ua := toLowerCase (nav_userAgent nav) in
      if includes ua "edg" || includes ua "edge"
      then assign result Edge 0.7%float
      else if includes ua "android" && includes ua "chrome"
              && includes ua "safari" && String.eqb (nav_vendor nav) ""
      then assign result Edge 0.6%float
      else result
  end.

(** ** Device class *)

Definition hasTouch : bool :=
  ontouchstart win || (0 <? maxTouchPoints nav)%Z.

Definition detectMobile : bool :=
  let ua := toLowerCase (nav_userAgent nav) in
  let mobileKeywords :=
    ["mobile"; "android"; "iphone"; "ipod"; "blackberry";
     "windows phone"; "opera mini"; "iemobile"] in
  let hasMobileKeyword := includes_some ua mobileKeywords in
  let isSmallScreen := (innerWidth win <=? 768)%Z in
  hasMobileKeyword || (hasTouch && isSmallScreen).

Definition detectTablet : bool :=
  let ua := toLowerCase (nav_userAgent nav) in
  let tabletKeywords := ["ipad"; "tablet"; "playbook"; "silk"] in
  let hasTabletKeyword := includes_some ua tabletKeywords in
  let isTabletSize := (768 <? innerWidth win)%Z && (innerWidth win <=? 1024)%Z in
  hasTabletKeyword || (hasTouch && isTabletSize).

Definition getPlatform : PlatformType :=
  if detectMobile then Mobile
  else if detectTablet then Tablet
  else Desktop.

(** ** Version, engine and operating system *)

(** [match && match[1] ? match[1] : 'Unknown'] *)
Definition group1_or_Unknown (m : option string) : string :=
  match m with
  | Some v => if truthy v then v else "Unknown"
  | None => "Unknown"
  end.

(** [a || b] on two groups of a match: a group that took no part in the
    match is [undefined]. *)
Definition group_or (a b : option string) : option string :=
  match a with
  | Some v => if truthy v then a else b
  | None => b
  end.

(** [match && (match[1] || match[2])
      ? (match[1] || match[2] || 'Unknown') : 'Unknown'] *)
Definition group1_or_group2_or_Unknown
  (m : option (option string * option string)) : string :=
  match m with
  | Some (m1, m2) =>
      match group_or m1 m2 with
      | Some v => if truthy v then v else "Unknown"
      | None => "Unknown"
      end
  | None => "Unknown"
  end.

Definition getBrowserVersion (browser : BrowserType) : string :=
  let ua := nav_userAgent nav in
  match browser with
  | Chrome => group1_or_Unknown (regexPatterns.chrome ua)
  | Firefox => group1_or_Unknown (regexPatterns.firefox ua)
  | Safari => group1_or_Unknown (regexPatterns.safari ua)
  | Edge => group1_or_Unknown (regexPatterns.edge ua)
  | Opera => group1_or_Unknown (regexPatterns.opera ua)
  | InternetExplorer => group1_or_group2_or_Unknown (regexPatterns.ie ua)
  | Unknown => "Unknown"
  end.

Definition getEngineInfo (browser : BrowserType) : EngineInfo :=
  match browser with
  | Chrome => mkEngineInfo Blink (getBrowserVersion browser)
  | Edge => mkEngineInfo Blink (getBrowserVersion browser)
  | Firefox => mkEngineInfo Gecko (getBrowserVersion browser)
  | Safari => mkEngineInfo WebKit (getBrowserVersion browser)
  | Opera => mkEngineInfo Blink (getBrowserVersion browser)
  | InternetExplorer => mkEngineInfo Trident (getBrowserVersion browser)
  | Unknown => mkEngineInfo Engine_Unknown "Unknown"
  end.

Definition getOSInfo : OSInfo :=
  let ua := toLowerCase (nav_userAgent nav) in
  let os := OS_Unknown in
  let osVersion := "Unknown" in
  if RegExp.test "win" ua || RegExp.test "windows" ua then
    let os := Windows in
    match regexPatterns.windows ua with
    | Some m1 =>
        if String.eqb m1 "10.0" then mkOSInfo os "Windows 10/11"
        else if String.eqb m1 "6.3" then mkOSInfo os "Windows 8.1"
        else if String.eqb m1 "6.2" then mkOSInfo os "Windows 8"
        else if String.eqb m1 "6.1" then mkOSInfo os "Windows 7"
        else mkOSInfo os osVersion
    | None => mkOSInfo os osVersion
    end
  else if RegExp.test "mac" ua || RegExp.test "macintosh" ua then
    let os := macOS in
    match regexPatterns.macos ua with
    | Some m1 =>
        if truthy m1 then
          let version := parseInt m1 in
          if (15 <=? version)%N then mkOSInfo os "macOS Big Sur+"
          else if (14 <=? version)%N then mkOSInfo os "macOS Mojave"
          else if (13 <=? version)%N then mkOSInfo os "macOS High Sierra"
          else mkOSInfo os osVersion
        else mkOSInfo os osVersion
    | None => mkOSInfo os osVersion
    end
  else if RegExp.test "linux" ua || RegExp.test "x11" ua then
    mkOSInfo Linux "Linux"
  else if RegExp.test "android" ua then
    match regexPatterns.android ua with
    | Some m1 =>
        mkOSInfo Android (if truthy m1 then "Android " ++ m1 else "Android")
    | None => mkOSInfo Android "Android"
    end
  else if RegExp.test "iphone" ua || RegExp.test "ipad" ua || RegExp.test "ipod" ua
  then
    match regexPatterns.ios ua with
    | Some m1 =>
        if truthy m1 then
          let version := replace_underscores m1 in
          mkOSInfo iOS ("iOS " ++ version)
        else mkOSInfo iOS "iOS"
    | None => mkOSInfo iOS "iOS"
    end
  else mkOSInfo os osVersion.

End Methods.

(** ** Result selection *)

(** The three records that [selectBestResult] fills in its first pass. *)
Record Tally := mkTally {
  browserCounts : JsMap.t BrowserType Z;
  browserConfidences : JsMap.t BrowserType float;
  browserResults : JsMap.t BrowserType DetectionMethodResult
}.

Definition Tally_empty : Tally := mkTally JsMap.empty JsMap.empty JsMap.empty.

(** [browserCounts[browser] || 0] *)
Definition count_or_zero (x : option Z) : Z :=
  match x with Some n => n | None => 0%Z end.

Definition lookup {V} : BrowserType -> JsMap.t BrowserType V -> option V :=
  JsMap.get BrowserType_eqb.
Definition store {V} : BrowserType -> V -> JsMap.t BrowserType V -> JsMap.t BrowserType V :=
  JsMap.set BrowserType_eqb.

(** The body of [methodResults.forEach]. *)
Definition count_result (t : Tally) (result : DetectionMethodResult) : Tally :=
  let browser := mr_browser result in
  {| browserCounts :=
       store browser (count_or_zero (lookup browser (browserCounts t)) + 1)%Z
             (browserCounts t);
     browserConfidences :=
       store browser
             (JsNumber.Math_max
                (JsNumber.or_zero (lookup browser (browserConfidences t)))
                (mr_confidence result))
             (browserConfidences t);
     browserResults := store browser result (browserResults t) |}.

Definition count_all (methodResults : list DetectionMethodResult) : Tally :=
  fold_left count_result methodResults Tally_empty.

(** [count * confidence] of a browser. *)
Definition score_of (t : Tally) (browser : BrowserType) : float :=
  PrimFloat.mul
    (JsNumber.of_count (count_or_zero (lookup browser (browserCounts t))))
    (JsNumber.or_zero (lookup browser (browserConfidences t))).

(** The body of [Object.keys(browserCounts).forEach], on the pair
    [(bestBrowser, bestScore)]. *)
Definition consider (t : Tally) (best : BrowserType * float) (browser : BrowserType)
  : BrowserType * float :=
  let count := count_or_zero (lookup browser (browserCounts t)) in
  let confidence := JsNumber.or_zero (lookup browser (browserConfidences t)) in
  let score := score_of t browser in
  if BrowserType_eqb browser Edge && (2 <=? count)%Z then (browser, score)
  else if BrowserType_eqb browser Chrome && PrimFloat.leb 0.9 confidence
       then (browser, score)
  else if PrimFloat.ltb (snd best) score then (browser, score)
  else best.

Definition pick_best (t : Tally) : BrowserType * float :=
  fold_left (consider t) (JsMap.map_keys (browserCounts t)) (Unknown, 0%float).

(** The part of a [BrowserDetectionResult] that [selectBestResult] returns. *)
Record Selection := mkSelection {
  sel_browser : BrowserType;
  sel_confidence : float;
  sel_detectionMethods : list DetectionMethod
}.

Definition selectBestResult (methodResults : list DetectionMethodResult)
  : Selection :=
  let t := count_all methodResults in
  let bestBrowser := fst (pick_best t) in
  let bestResult := lookup bestBrowser (browserResults t) in
  {| sel_browser := bestBrowser;
     sel_confidence :=
       match bestResult with
       | Some r => mr_confidence r
       | None => 0%float
       end;
     sel_detectionMethods :=
       List.map mr_method
         (List.filter (fun r => BrowserType_eqb (mr_browser r) bestBrowser)
                      methodResults) |}.

(** *** Notions used to state what the selection returns *)

(** The candidates that name [b]. *)
Definition naming (b : BrowserType) (l : list DetectionMethodResult)
  : list DetectionMethodResult :=
  List.filter (fun r => BrowserType_eqb (mr_browser r) b) l.

(** How many candidates name [b]. *)
Definition votes (b : BrowserType) (l : list DetectionMethodResult) : nat :=
  List.length (naming b l).

(** The last candidate of the list that names [b]. *)
Definition last_naming (b : BrowserType) (l : list DetectionMethodResult)
  : option DetectionMethodResult :=
  List.find (fun r => BrowserType_eqb (mr_browser r) b) (List.rev l).


(** The browsers of a list in the order in which each first appears. *)
Definition first_seen (bs : list BrowserType) : list BrowserType :=
  fold_left (fun seen b => if existsb (BrowserType_eqb b) seen
                           then seen else (seen ++ [b])%list) bs [].

(** A browser visited while Edge is the running best takes its place when
    it is Chrome with a confidence of 0.9 or more, or when its score is
    greater than the score of Edge. *)
Definition overtakes_Edge (t : Tally) (b : BrowserType) : bool :=
  (BrowserType_eqb b Chrome
   && PrimFloat.leb 0.9 (JsNumber.or_zero (lookup b (browserConfidences t))))
  || PrimFloat.ltb (score_of t Edge) (score_of t b).

(** A confidence between 0 and 1. *)
Definition in_unit_interval (c : float) : bool :=
  PrimFloat.leb 0 c && PrimFloat.leb c 1.

(** ** The main detection function *)

(** How a call inside a [try] block ends. *)
Inductive Completion (A : Type) :=
| Normal (a : A)
| Throw.
Arguments Normal {A} a.
Arguments Throw {A}.

(** The [switch] on the method name.  On a host of the declared types no
    method lets an exception out. *)
Definition runMethod (host : Host) (method : DetectionMethod)
  : Completion DetectionMethodResult :=
  match method with
  | M_apiDetection => Normal (apiDetection host)
  | M_vendorDetection => Normal (vendorDetection host)
  | M_userAgentDetection => Normal (userAgentDetection host)
  | M_cssDetection => Normal (cssDetection host)
  end.

Definition cacheKey : string := "browser_detection".

Section DetectBrowser.

(** The dispatch is a parameter here, so that the loop is also defined
    over methods that throw. *)
Variable run : Host -> DetectionMethod -> Completion DetectionMethodResult.

(** One turn of [for (const method of this.detectionMethods)]. *)
Definition try_method (host : Host) (methodResults : list DetectionMethodResult)
           (method : DetectionMethod) : list DetectionMethodResult :=
  match run host method with
  | Normal methodResult =>
      if negb (BrowserType_eqb (mr_browser methodResult) Unknown)
      then methodResults ++ [methodResult]
      else methodResults
  | Throw => methodResults             (* [console.warn], nothing else *)
  end.

Definition collect (this : SmartBrowserDetection) (host : Host)
  : list DetectionMethodResult :=
  fold_left (try_method host) (methods this) [].

(** [Object.assign(result, finalResult)] *)
Definition Object_assign (result : BrowserDetectionResult) (s : Selection)
  : BrowserDetectionResult :=
  {| browser := sel_browser s;
     browserVersion := browserVersion result;
     engine := engine result;
     engineVersion := engineVersion result;
     platform := platform result;
     os := os result;
     osVersion := osVersion result;
     isMobile := isMobile result;
     isTablet := isTablet result;
     isDesktop := isDesktop result;
     confidence := sel_confidence s;
     detectionMethods := sel_detectionMethods s;
     userAgent := userAgent result;
     vendor := vendor result;
     timestamp := timestamp result |}.

(** The result of a call that finds the cache empty. *)
Definition detect_fresh (this : SmartBrowserDetection) (host : Host)
  : BrowserDetectionResult :=
  let result :=
    {| browser := Unknown;
       browserVersion := "Unknown";
       engine := Engine_Unknown;
       engineVersion := "Unknown";
       platform := None;
       os := OS_Unknown;
       osVersion := "Unknown";
       isMobile := false;
       isTablet := false;
       isDesktop := false;
       confidence := 0%float;
       detectionMethods := [];
       userAgent := nav_userAgent (navigator host);
       vendor := nav_vendor (navigator host);
       timestamp := Date_now host |} in
  let methodResults := collect this host in
  let result :=
    if (0 <? Z.of_nat (List.length methodResults))%Z
    then Object_assign result (selectBestResult methodResults)
    else result in
  let isMobile' := detectMobile host in
  let isTablet' := detectTablet host in
  let isDesktop' := negb isMobile' && negb isTablet' in
  let engineInfo := getEngineInfo host (browser result) in
  let osInfo := getOSInfo host in
  {| browser := browser result;
     browserVersion := getBrowserVersion host (browser result);
     engine := ei_engine engineInfo;
     engineVersion := ei_version engineInfo;
     platform := platform result;
     os := oi_os osInfo;
     osVersion := oi_osVersion osInfo;
     isMobile := isMobile';
     isTablet := isTablet';
     isDesktop := isDesktop';
     confidence := confidence result;
     detectionMethods := detectionMethods result;
     userAgent := userAgent result;
     vendor := vendor result;
     timestamp := timestamp result |}.

(** [detectBrowser()]: the result and the instance after the call. *)
Definition detectBrowserWith (this : SmartBrowserDetection) (host : Host)
  : BrowserDetectionResult * SmartBrowserDetection :=
  match JsMap.get String.eqb cacheKey (cache this) with
  | Some cached => (cached, this)
  | None =>
      let result := detect_fresh this host in
      (result,
       {| cache := JsMap.set String.eqb cacheKey result (cache this);
          methods := methods this |})
  end.

End DetectBrowser.

Definition detectBrowser := detectBrowserWith runMethod.

(** [clearCache()] *)
Definition clearCache (this : SmartBrowserDetection) : SmartBrowserDetection :=
  {| cache := JsMap.empty; methods := methods this |}.

(** [getCacheStats()] *)
Definition getCacheStats (this : SmartBrowserDetection) : CacheStats :=
  {| size := JsMap.map_size (cache this);
     keys := JsMap.map_keys (cache this) |}.

(** [getCompleteInfo()] *)
Definition getCompleteInfo (this : SmartBrowserDetection) (host : Host)
  : BrowserDetectionResult * SmartBrowserDetection :=
  let (detection, this') := detectBrowser this host in
  let version := getBrowserVersion host (browser detection) in
  let osInfo := getOSInfo host in
  let platform := getPlatform host in
  let engineInfo := getEngineInfo host (browser detection) in
  ({| browser := browser detection;
      browserVersion := version;
      engine := ei_engine engineInfo;
      engineVersion := ei_version engineInfo;
      platform := Some platform;
      os := oi_os osInfo;
      osVersion := oi_osVersion osInfo;
      isMobile := isMobile detection;
      isTablet := isTablet detection;
      isDesktop := isDesktop detection;
      confidence := confidence detection;
      detectionMethods := detectionMethods detection;
      userAgent := nav_userAgent (navigator host);
      vendor := nav_vendor (navigator host);
      timestamp := timestamp detection |},
   this').

(** ** The second copy of the class

    The repository holds a second copy of [SmartBrowserDetection] whose
    [apiDetection] and [getBrowserVersion] differ from those of
    [src/index.ts].  Both are embedded here, for comparison with the ones
    above. *)

Module SecondCopy.

Import RegExp.

(** [(\d+\.\d+(?:\.\d+)?)] *)
Definition three_part (s : string) : option (string * string) :=
  match two_part "." s with
  | Some (v, String c r) =>
      if Ascii.eqb c "." then
        match digits r with
        | Some (d, r') => Some (v ++ String "." d, r')
        | None => Some (v, String c r)
        end
      else Some (v, String c r)
  | other => other
  end.

Definition version : string -> option string := capture three_part.

Definition is_word (c : ascii) : bool :=
  in_range 48 57 c || in_range 65 90 c || in_range 97 122 c
  || N.eqb (code c) 95.

(** [\w+] followed by [k]; what follows in the source is [\s], which no
    shorter run of word characters reaches. *)
Fixpoint skip_word {A} (k : string -> option A) (s : string) (seen : bool)
  : option A :=
  match s with
  | String c s' =>
      if is_word c then skip_word k s' true
      else if seen then k s else None
  | EmptyString => if seen then k s else None
  end.

Definition word {A} (k : string -> option A) (s : string) : option A :=
  skip_word k s false.

Definition then_lit {A} := @regexPatterns.then_lit A.

Module regexPatterns.
Definition chrome := search (alt ["chrome"; "crios"] (then_lit "/" version)).
Definition firefox := search (alt ["firefox"; "fxios"] (then_lit "/" version)).
Definition safari := search (alt ["version"; "safari"] (then_lit "/" version)).
Definition edge := search (alt ["edg"; "edge"] (then_lit "/" version)).
Definition opera := search (alt ["opera"; "opr"] (then_lit "/" version)).
Definition ie := regexPatterns.ie.
End regexPatterns.

(** [let match = ua.match(p1); if (!match) match = ua.match(p2); ...] *)
Fixpoint first_matching {A} (ps : list (string -> option A)) (ua : string)
  : option A :=
  match ps with
  | [] => None
  | p :: ps' =>
      match p ua with
      | Some m => Some m
      | None => first_matching ps' ua
      end
  end.

Definition BrowserType_name (b : BrowserType) : string :=
  match b with
  | Chrome => "Chrome"
  | Firefox => "Firefox"
  | Safari => "Safari"
  | Edge => "Edge"
  | Opera => "Opera"
  | InternetExplorer => "Internet Explorer"
  | Unknown => "Unknown"
  end.

(** The loop over [navigator.userAgentData.brands]. *)
Fixpoint version_of_brand (browser : BrowserType) (brands : list Brand)
  : option string :=
  match brands with
  | [] => None
  | b :: rest =>
      if String.eqb (toLowerCase (brand b)) (toLowerCase (BrowserType_name browser))
      then Some (brand_version b)
      else if BrowserType_eqb browser Edge && String.eqb (brand b) "Microsoft Edge"
      then Some (brand_version b)
      else if BrowserType_eqb browser Chrome && String.eqb (brand b) "Google Chrome"
      then Some (brand_version b)
      else version_of_brand browser rest
  end.

(** [/(\d+\.\d+(?:\.\d+)?)/]: the first dotted number of the input. *)
Definition genericMatch : string -> option string := search version.

Section Methods.

Variable host : Host.

Definition apiDetection : DetectionMethodResult :=
  let result := mkMethodResult Unknown 0%float M_apiDetection in
  match InstallTrigger (window host) with
  | Some _ => assign result Firefox 0.95%float
  | None =>
      if chrome_runtime_onConnect host then assign result Chrome 0.95%float
      else if safari_pushNotification host then assign result Safari 0.95%float
      else
        match match userAgentData (navigator host) with
              | Some d => brands d
              | None => None
              end with
        | Some brands =>
            let hasEdge :=
              existsb (fun b => String.eqb (brand b) "Microsoft Edge") brands in
            if hasEdge then assign result Edge 0.95%float else result
        | None =>
            if opera_has_version host then assign result Opera 0.9%float
            else if truthy_number (documentMode (document host))
                 then assign result InternetExplorer 0.95%float
                 else result
        end
  end.

(** The version that the patterns of a browser give, before the last
    fallback. *)
Definition version_by_patterns (browser : BrowserType) (ua : string) : string :=
  match browser with
  | Chrome =>
      group1_or_Unknown
        (first_matching [regexPatterns.chrome;
                         search (then_lit "crios/" version);
                         search (then_lit "chrome/" version)] ua)
  | Firefox =>
      group1_or_Unknown
        (first_matching [regexPatterns.firefox;
                         search (then_lit "fxios/" version);
                         search (then_lit "firefox/" version)] ua)
  | Safari =>
      group1_or_Unknown
        (first_matching [regexPatterns.safari;
                         search (then_lit "version/" version);
                         search (then_lit "mobile/" (word (space version)))] ua)
  | Edge =>
      group1_or_Unknown
        (first_matching [regexPatterns.edge;
                         search (then_lit "edge/" version);
                         search (then_lit "edg/" version)] ua)
  | Opera =>
      group1_or_Unknown
        (first_matching [regexPatterns.opera;
                         search (then_lit "opr/" version);
                         search (then_lit "opera/" version)] ua)
  | InternetExplorer =>
      group1_or_group2_or_Unknown
        (first_matching
           [regexPatterns.ie;
            (fun ua => option_map (fun v => (Some v, None))
                                  (search (then_lit "rv:" version) ua));
            (fun ua => option_map (fun v => (Some v, None))
                                  (search (then_lit "msie" (space version)) ua))]
           ua)
  | Unknown => "Unknown"
  end.

Definition getBrowserVersion (browser : BrowserType) : string :=
  match match match userAgentData (navigator host) with
              | Some d => brands d
              | None => None
              end with
        | Some brands => version_of_brand browser brands
        | None => None
        end with
  | Some v => v
  | None =>
      let ua := nav_userAgent (navigator host) in
      let version := version_by_patterns browser ua in
      if String.eqb version "Unknown"
         && negb (BrowserType_eqb browser Unknown)
      then
        match genericMatch ua with
        | Some g => if truthy g then g else version
        | None => version
        end
      else version
  end.

End Methods.

End SecondCopy.

(** ** Hosts used in the examples *)

Module Examples.

Definition bare_window (width : Z) (touch : bool) : Window :=
  {| chrome := None; InstallTrigger := None; safari := None; opera := None;
     innerWidth := width; ontouchstart := touch |}.

Definition plain_document : Document :=
  {| documentMode := None; scratch_element := ProbeReads true true |}.

(** A page whose script runs before [document.body] exists. *)
Definition headless_document : Document :=
  {| documentMode := None; scratch_element := ProbeThrows |}.

Definition host_of (ua vendor : string) (w : Window) (d : Document) : Host :=
  {| window := w;
     navigator := {| nav_userAgent := ua; nav_vendor := vendor;
                     maxTouchPoints := 0; userAgentData := None |};
     document := d;
     Date_now := 1700000000000 |}.

Definition ua_iPad : string :=
  "Mozilla/5.0 (iPad; CPU OS 17_0 like Mac OS X) AppleWebKit/605.1.15 (KHTML, like Gecko) Version/17.0 Mobile/15E148 Safari/604.1".

Definition ua_Edge : string :=
  "Mozilla/5.0 (Windows NT 10.0; Win64; x64) AppleWebKit/537.36 (KHTML, like Gecko) Chrome/120.0.0.0 Safari/537.36 Edg/120.0.0.0".

Definition ua_Chrome_iOS : string :=
  "Mozilla/5.0 (iPhone; CPU iPhone OS 17_0 like Mac OS X) AppleWebKit/605.1.15 (KHTML, like Gecko) CriOS/120.0.6099.119 Mobile/15E148 Safari/604.1".

Definition ua_Firefox_Mac : string :=
  "Mozilla/5.0 (Macintosh; Intel Mac OS X 10.15; rv:120.0) Gecko/20100101 Firefox/120.0".

Definition ua_Firefox_XP : string :=
  "Mozilla/5.0 (Windows NT 5.1; rv:52.0) Gecko/20100101 Firefox/52.0".

Definition ua_Safari_Sierra : string :=
  "Mozilla/5.0 (Macintosh; Intel Mac OS X 10_12_6) AppleWebKit/605.1.15 (KHTML, like Gecko) Version/12.1.2 Safari/605.1.15".

Definition ua_Android : string :=
  "Mozilla/5.0 (Linux; Android 13; SM-G991B) AppleWebKit/537.36 (KHTML, like Gecko) Chrome/120.0.0.0 Mobile Safari/537.36".

Definition ua_Android_Firefox : string :=
  "Mozilla/5.0 (Android 4.4; Mobile; rv:41.0) Gecko/41.0 Firefox/41.0".

(** An Android tablet whose model name holds the letters "win". *)
Definition ua_Android_Winnovo : string :=
  "Mozilla/5.0 (Linux; Android 10; Winnovo T5) AppleWebKit/537.36 (KHTML, like Gecko) Chrome/120.0.0.0 Safari/537.36".

(** A Chrome for iOS user agent sent from an Android build: it holds
    "android", "chrome", "safari" and "crios". *)
Definition ua_Android_CriOS : string :=
  "Mozilla/5.0 (Linux; Android 13) AppleWebKit/537.36 (KHTML, like Gecko) Chrome/120.0.0.0 CriOS/120.0 Mobile Safari/537.36".

Definition iPad : Host :=
  {| window := bare_window 1024 true;
     navigator := {| nav_userAgent := ua_iPad;
                     nav_vendor := "Apple Computer, Inc.";
                     maxTouchPoints := 5; userAgentData := None |};
     document := plain_document;
     Date_now := 1700000000000 |}.

(** Firefox: [window.InstallTrigger] is there, no other hook is. *)
Definition Firefox_desktop : Host :=
  {| window := {| chrome := None; InstallTrigger := Some true;
                  safari := None; opera := None;
                  innerWidth := 1920; ontouchstart := false |};
     navigator := {| nav_userAgent :=
                       "Mozilla/5.0 (Windows NT 10.0; Win64; x64; rv:120.0) Gecko/20100101 Firefox/120.0";
                     nav_vendor := "";
                     maxTouchPoints := 0; userAgentData := None |};
     document := plain_document;
     Date_now := 1700000000000 |}.

(** Every hook of Chrome and Safari is there and both prefixed
    properties read back, on a user agent of Edge. *)
Definition Edge_with_every_hook : Host :=
  {| window := {| chrome := Some {| runtime := Some {| onConnect := true |};
                                    webstore := true |};
                  InstallTrigger := None;
                  safari := Some {| pushNotification := true |};
                  opera := None;
                  innerWidth := 1920; ontouchstart := false |};
     navigator := {| nav_userAgent := ua_Edge; nav_vendor := "";
                     maxTouchPoints := 0; userAgentData := None |};
     document := plain_document;
     Date_now := 1700000000000 |}.

(** No token, no hook, and a scratch element that cannot be built. *)
Definition nothing : Host := host_of "" "" (bare_window 1920 false) headless_document.


Definition Edge_then_Chrome : list DetectionMethodResult :=
  [ mkMethodResult Edge 0.7%float M_vendorDetection;
    mkMethodResult Chrome 0.95%float M_userAgentDetection;
    mkMethodResult Edge 0.6%float M_cssDetection ].

Definition Edge_then_Firefox : list DetectionMethodResult :=
  [ mkMethodResult Edge 0.7%float M_vendorDetection;
    mkMethodResult Firefox 0.85%float M_userAgentDetection;
    mkMethodResult Edge 0.6%float M_cssDetection ].

(** The hook of Chrome on a user agent of Firefox. *)
Definition Chrome_claiming_Firefox : Host :=
  {| window := {| chrome := Some {| runtime := Some {| onConnect := true |};
                                    webstore := false |};
                  InstallTrigger := None; safari := None; opera := None;
                  innerWidth := 1920; ontouchstart := false |};
     navigator := {| nav_userAgent :=
                       "Mozilla/5.0 (Windows NT 10.0; Win64; x64; rv:120.0) Gecko/20100101 Firefox/120.0";
                     nav_vendor := "";
                     maxTouchPoints := 0; userAgentData := None |};
     document := plain_document;
     Date_now := 1700000000000 |}.

Definition ua_Safari_Mac : string :=
  "Mozilla/5.0 (Macintosh; Intel Mac OS X 10_15_7) AppleWebKit/605.1.15 (KHTML, like Gecko) Version/17.0 Safari/605.1.15".

End Examples.

(** ** Callers: sequences of calls on one instance

    The examples and the benchmark call [detectBrowser] in a loop, with
    or without [clearCache] between the calls, while the page (the host)
    may change. *)

Inductive Call :=
| Call_detectBrowser
| Call_getCompleteInfo
| Call_clearCache.

(** One call on the host it finds: what it returns, and the instance
    after it. *)
Definition call (this : SmartBrowserDetection) (c : Call * Host)
  : option BrowserDetectionResult * SmartBrowserDetection :=
  match fst c with
  | Call_detectBrowser =>
      (Some (fst (detectBrowser this (snd c))), snd (detectBrowser this (snd c)))
  | Call_getCompleteInfo =>
      (Some (fst (getCompleteInfo this (snd c))), snd (getCompleteInfo this (snd c)))
  | Call_clearCache => (None, clearCache this)
  end.

(** The instance after a sequence of calls. *)
Definition run_calls (this : SmartBrowserDetection) (cs : list (Call * Host))
  : SmartBrowserDetection :=
  fold_left (fun t c => snd (call t c)) cs this.

(** [for (...) { detector.detectBrowser(); }]: the results in order, and
    the instance after the loop. *)
Fixpoint detectBrowser_each (this : SmartBrowserDetection) (hosts : list Host)
  : list BrowserDetectionResult * SmartBrowserDetection :=
  match hosts with
  | [] => ([], this)
  | host :: rest =>
      let (r, this') := detectBrowser this host in
      let (rs, this'') := detectBrowser_each this' rest in
      (r :: rs, this'')
  end.

(** The three messages of [confidenceBasedDetection] in the examples. *)
Inductive ConfidenceMessage := High_confidence | Medium_confidence | Low_confidence.

Definition confidenceBasedDetection (result : BrowserDetectionResult)
  : ConfidenceMessage :=
  if PrimFloat.leb 0.9 (confidence result) then High_confidence
  else if PrimFloat.leb 0.7 (confidence result) then Medium_confidence
  else Low_confidence.

(** ** Notions used to state the properties *)

(** The result of one detection method. *)
Definition method_result (host : Host) (method : DetectionMethod)
  : DetectionMethodResult :=
  match method with
  | M_apiDetection => apiDetection host
  | M_vendorDetection => vendorDetection host
  | M_userAgentDetection => userAgentDetection host
  | M_cssDetection => cssDetection host
  end.

Definition exactly_one (a b c : bool) : bool :=
  (a && negb b && negb c) || (negb a && b && negb c) || (negb a && negb b && c).

(** The name of an operating system as [OSType] writes it. *)
Definition OSType_name (o : OSType) : string :=
  match o with
  | Windows => "Windows"
  | macOS => "macOS"
  | Linux => "Linux"
  | Android => "Android"
  | iOS => "iOS"
  | OS_Unknown => "Unknown"
  end.

(** A string of the shape [\d+\.\d+] and nothing else. *)
Definition is_version (v : string) : bool :=
  match RegExp.two_part "." v with
  | Some (_, EmptyString) => true
  | _ => false
  end.

(** What the user agent (in lower case) and the vendor must hold for
    [userAgentDetection] to answer [b]. *)
Definition userAgent_evidence (b : BrowserType) (ua vendor : string) : bool :=
  match b with
  | Edge =>
      includes ua "edg"
      || (includes ua "android" && includes ua "chrome" && includes ua "safari"
          && includes ua "opr" && String.eqb vendor "")
  | Chrome =>
      negb (includes ua "edg")
      && ((includes ua "chrome" && negb (includes ua "opr"))
          || (includes ua "safari" && includes (toLowerCase vendor) "google"))
  | Firefox =>
      negb (includes ua "edg") && (includes ua "firefox" || includes ua "fxios")
  | Safari =>
      negb (includes ua "edg") && includes ua "safari" && negb (includes ua "chrome")
  | Opera =>
      negb (includes ua "edg") && (includes ua "opr" || includes ua "opera")
  | InternetExplorer =>
      negb (includes ua "edg") && (includes ua "msie" || includes ua "trident")
  | Unknown =>
      negb (includes ua "edg" || includes ua "firefox" || includes ua "fxios"
            || includes ua "opr" || includes ua "opera"
            || includes ua "msie" || includes ua "trident")
  end.

(** The same for [vendorDetection], on the vendor in lower case. *)
Definition vendor_evidence (b : BrowserType) (ua vendor : string) : bool :=
  match b with
  | Edge =>
      includes ua "edg"
      || (String.eqb vendor "" && includes ua "android" && includes ua "chrome"
          && includes ua "safari")
  | Chrome => negb (includes ua "edg") && includes vendor "google"
  | Safari =>
      negb (includes ua "edg") && includes vendor "apple"
      && negb (includes vendor "google")
  | Firefox =>
      negb (includes ua "edg") && includes vendor "mozilla"
      && negb (includes vendor "google") && negb (includes vendor "apple")
  | Opera | InternetExplorer => false
  | Unknown =>
      negb (includes ua "edg") && negb (includes vendor "google")
      && negb (includes vendor "apple") && negb (includes vendor "mozilla")
  end.

(** Every pair of browser and confidence that a method can return, in
    the order of its tests. *)
Definition apiDetection_outcomes : list (BrowserType * float) :=
  [(Unknown, 0%float); (Chrome, 0.95%float); (Safari, 0.95%float);
   (Edge, 0.95%float); (Opera, 0.9%float); (InternetExplorer, 0.95%float)].

Definition vendorDetection_outcomes : list (BrowserType * float) :=
  [(Unknown, 0%float); (Edge, 0.9%float); (Chrome, 0.9%float);
   (Safari, 0.9%float); (Firefox, 0.8%float); (Edge, 0.7%float)].

Definition userAgentDetection_outcomes : list (BrowserType * float) :=
  [(Unknown, 0%float); (Edge, 0.85%float); (Chrome, 0.8%float);
   (Chrome, 0.95%float); (Chrome, 0.85%float); (Edge, 0.8%float);
   (Firefox, 0.85%float); (Safari, 0.7%float); (Opera, 0.85%float);
   (InternetExplorer, 0.95%float)].

Definition cssDetection_outcomes : list (BrowserType * float) :=
  [(Unknown, 0%float); (Chrome, 0.7%float); (Safari, 0.7%float);
   (Edge, 0.7%float); (Edge, 0.6%float)].

Definition outcomes (method : DetectionMethod) : list (BrowserType * float) :=
  match method with
  | M_apiDetection => apiDetection_outcomes
  | M_vendorDetection => vendorDetection_outcomes
  | M_userAgentDetection => userAgentDetection_outcomes
  | M_cssDetection => cssDetection_outcomes
  end.

(** The candidates of [detectBrowser] when the four methods return the
    given pairs: those that do not answer [Unknown], in the order of the
    methods. *)
Definition candidates_of (a v u c : BrowserType * float)
  : list DetectionMethodResult :=
  List.filter (fun r => negb (BrowserType_eqb (mr_browser r) Unknown))
    [ mkMethodResult (fst a) (snd a) M_apiDetection;
      mkMethodResult (fst v) (snd v) M_vendorDetection;
      mkMethodResult (fst u) (snd u) M_userAgentDetection;
      mkMethodResult (fst c) (snd c) M_cssDetection ].

(** A property of the candidates checked on every combination of
    outcomes of the four methods. *)
Definition for_all_outcomes (P : list DetectionMethodResult -> bool) : bool :=
  forallb (fun a =>
    forallb (fun v =>
      forallb (fun u =>
        forallb (fun c => P (candidates_of a v u c)) cssDetection_outcomes)
        userAgentDetection_outcomes)
      vendorDetection_outcomes)
    apiDetection_outcomes.

(** The browser and the confidence of a result. *)
Definition outcome_of (r : DetectionMethodResult) : BrowserType * float :=
  (mr_browser r, mr_confidence r).

Fixpoint all_digits (s : string) : bool :=
  match s with
  | EmptyString => true
  | String c s' => RegExp.is_digit c && all_digits s'
  end.

(** A matcher whose capture is a version that stands in its input. *)
Definition captures_within (m : string -> option string) : Prop :=
  forall s v, m s = Some v ->
    is_version v = true /\ exists p r, s = p ++ v ++ r.

(** A browser visited while Chrome is the running best takes its place
    when it is Edge with two votes or more, or when its score is greater
    than the score of Chrome. *)
Definition overtakes_Chrome (t : Tally) (b : BrowserType) : bool :=
  (BrowserType_eqb b Edge && (2 <=? count_or_zero (lookup b (browserCounts t)))%Z)
  || PrimFloat.ltb (score_of t Chrome) (score_of t b).

(** Three methods name Safari; user agent detection, third in the list,
    names Chrome at 0.95. *)
Definition Safari_thrice_then_Chrome : list DetectionMethodResult :=
  [ mkMethodResult Safari 0.95%float M_apiDetection;
    mkMethodResult Safari 0.9%float M_vendorDetection;
    mkMethodResult Chrome 0.95%float M_userAgentDetection;
    mkMethodResult Safari 0.7%float M_cssDetection ].

Definition is_empty {A} (l : list A) : bool :=
  match l with [] => true | _ => false end.

Definition is_cssDetection (m : DetectionMethod) : bool :=
  match m with M_cssDetection => true | _ => false end.

(** ** Properties of a candidate list, as boolean tests

    Each is checked on every list of candidates that the four methods
    can produce. *)

(** The selection on a list that is not empty names a browser, with a
    confidence between 0.6 and 0.95. *)
Definition known_and_scored (l : list DetectionMethodResult) : bool :=
  is_empty l
  || (negb (BrowserType_eqb (sel_browser (selectBestResult l)) Unknown)
      && PrimFloat.leb 0.6 (sel_confidence (selectBestResult l))
      && PrimFloat.leb (sel_confidence (selectBestResult l)) 0.95).

(** When all candidates name the browser of the first one, it is
    selected. *)
Definition unanimous_wins (l : list DetectionMethodResult) : bool :=
  match l with
  | [] => true
  | r :: rs =>
      negb (forallb (fun x => BrowserType_eqb (mr_browser x) (mr_browser r)) rs)
      || BrowserType_eqb (sel_browser (selectBestResult l)) (mr_browser r)
  end.

(** When [cssDetection] is among the methods of the selection, its
    confidence is at most 0.7 ... *)
Definition css_caps_confidence (l : list DetectionMethodResult) : bool :=
  negb (existsb is_cssDetection (sel_detectionMethods (selectBestResult l)))
  || PrimFloat.leb (sel_confidence (selectBestResult l)) 0.7.

(** ... and so not 0.9 or more. *)
Definition css_not_high (l : list DetectionMethodResult) : bool :=
  negb (existsb is_cssDetection (sel_detectionMethods (selectBestResult l)))
  || negb (PrimFloat.leb 0.9 (sel_confidence (selectBestResult l))).

(** ** The cache along a sequence of calls *)

(** A result with the field [platform] set. *)
Definition with_platform (p : PlatformType) (r : BrowserDetectionResult)
  : BrowserDetectionResult :=
  {| browser := browser r; browserVersion := browserVersion r;
     engine := engine r; engineVersion := engineVersion r;
     platform := Some p; os := os r; osVersion := osVersion r;
     isMobile := isMobile r; isTablet := isTablet r; isDesktop := isDesktop r;
     confidence := confidence r; detectionMethods := detectionMethods r;
     userAgent := userAgent r; vendor := vendor r; timestamp := timestamp r |}.

(** The hosts of the calls of [detectBrowser] and [getCompleteInfo] made
    since the last [clearCache], oldest first. *)
Definition hosts_since_clear (cs : list (Call * Host)) : list Host :=
  fold_left (fun hs c => match fst c with
                         | Call_clearCache => []
                         | _ => (hs ++ [snd c])%list
                         end) cs [].

(** The cache that these hosts leave on an instance that was new. *)
Definition cache_of (hs : list Host) : JsMap.t string BrowserDetectionResult :=
  match hs with
  | [] => []
  | h :: _ => [(cacheKey, detect_fresh runMethod constructor h)]
  end.

(** ** More hosts *)

(** Edge on a laptop with a touch screen, in a window 1000 pixels wide. *)
Definition touch_laptop : Host :=
  Examples.host_of Examples.ua_Edge "" (Examples.bare_window 1000 true)
                   Examples.plain_document.

(** Chrome for iOS on a phone. *)
Definition Chrome_on_iPhone : Host :=
  Examples.host_of Examples.ua_Chrome_iOS "Apple Computer, Inc."
                   (Examples.bare_window 390 true) Examples.plain_document.

(** ** The candidates behind the tally *)

(** The confidences of the candidates are numbers above 0, as those of
    the methods are (a candidate is kept only when it names a browser). *)
Definition confidences_positive (l : list DetectionMethodResult) : bool :=
  forallb (fun r => PrimFloat.ltb 0 (mr_confidence r)) l.

(** The greater of two numbers. *)
Definition greater (m c : float) : float :=
  if PrimFloat.ltb m c then c else m.

(** The greatest confidence among the candidates that name [b], and 0
    when none does. *)
Definition greatest_confidence (b : BrowserType) (l : list DetectionMethodResult)
  : float :=
  fold_left (fun m r => greater m (mr_confidence r)) (naming b l) 0%float.

(** The score of [b]: the number of candidates that name it times the
    greatest of their confidences. *)
Definition score (l : list DetectionMethodResult) (b : BrowserType) : float :=
  PrimFloat.mul (JsNumber.of_count (Z.of_nat (votes b l))) (greatest_confidence b l).

(** Numbers from 0 upwards, and above 0, in the format of the
    specification of binary64. *)
Definition not_below_zero (x : spec_float) : bool :=
  match x with
  | S754_zero _ | S754_finite false _ _ | S754_infinity false => true
  | _ => false
  end.

Definition above_zero (x : spec_float) : bool :=
  match x with
  | S754_finite false _ _ | S754_infinity false => true
  | _ => false
  end.

(** Some candidate names [b] with a confidence of [c] or more. *)
Definition names_with (b : BrowserType) (c : float)
           (l : list DetectionMethodResult) : bool :=
  existsb (fun r => BrowserType_eqb (mr_browser r) b
                    && PrimFloat.leb c (mr_confidence r)) l.

(** A browser first seen after Edge takes the place of Edge when it is
    Chrome and a candidate names Chrome at 0.9 or more, or when its score
    is greater than the score of Edge. *)
Definition overtakes_Edge_in (l : list DetectionMethodResult) (b : BrowserType)
  : bool :=
  (BrowserType_eqb b Chrome && names_with Chrome 0.9 l)
  || PrimFloat.ltb (score l Edge) (score l b).

(** A browser first seen after Chrome takes the place of Chrome when it
    is Edge with two votes or more, or when its score is greater than the
    score of Chrome. *)
Definition overtakes_Chrome_in (l : list DetectionMethodResult) (b : BrowserType)
  : bool :=
  (BrowserType_eqb b Edge && (2 <=? votes Edge l)%nat)
  || PrimFloat.ltb (score l Chrome) (score l b).

(** Chrome named by the API at 0.95 and by the user agent, Edge by the
    vendor and the CSS method: the score of Chrome is 1.9, the score of
    Edge 1.4. *)
Definition Chrome_ahead_of_Edge : list DetectionMethodResult :=
  [ mkMethodResult Chrome 0.95%float M_apiDetection;
    mkMethodResult Edge 0.7%float M_vendorDetection;
    mkMethodResult Chrome 0.8%float M_userAgentDetection;
    mkMethodResult Edge 0.6%float M_cssDetection ].

(** The same with Firefox named once at the end. *)
Definition Chrome_ahead_of_Edge_then_Firefox : list DetectionMethodResult :=
  (Chrome_ahead_of_Edge ++ [mkMethodResult Firefox 0.85%float M_userAgentDetection])%list.

(** A phone whose user agent is that of Chrome on Android, with an empty
    vendor and the runtime hook of Chrome: its candidates are
    [Chrome_ahead_of_Edge]. *)
Definition Edge_mobile_on_Android : Host :=
  {| window := {| chrome := Some {| runtime := Some {| onConnect := true |};
                                    webstore := false |};
                  InstallTrigger := None; safari := None; opera := None;
                  innerWidth := 412; ontouchstart := true |};
     navigator := {| nav_userAgent := Examples.ua_Android; nav_vendor := "";
                     maxTouchPoints := 5; userAgentData := None |};
     document := Examples.plain_document;
     Date_now := 1700000000000 |}.

(** ** Globals that may be missing

    The class reads [window], [navigator] and [document] as globals.
    Outside a page (a worker, Node, a test with a partial stub) a global
    may not be declared, and reading it throws a ReferenceError; a
    [navigator] may lack [userAgent], and calling [toLowerCase] or
    [match] on [undefined] throws a TypeError.  The other members have
    their declared types. *)

Module Untyped.

Record NavigatorStub := mkNavigatorStub {
  stub_userAgent : option string;       (* [None]: [undefined] *)
  stub_vendor : string;
  stub_maxTouchPoints : Z;
  stub_userAgentData : option UserAgentData
}.

Record Globals := mkGlobals {
  global_window : option Window;        (* [None]: not declared *)
  global_navigator : option NavigatorStub;
  global_document : option Document;
  global_Date_now : Z
}.

(** Sequencing: an exception ends the statements that follow. *)
Definition bind {A B} (c : Completion A) (k : A -> Completion B) : Completion B :=
  match c with
  | Normal a => k a
  | Throw => Throw
  end.

(** Evaluating the name of a global, or calling a method of a member:
    an exception when there is none. *)
Definition found {A} (x : option A) : Completion A :=
  match x with
  | Some a => Normal a
  | None => Throw
  end.

(** The globals of a host of the declared types. *)
Definition of_host (host : Host) : Globals :=
  {| global_window := Some (window host);
     global_navigator :=
       Some {| stub_userAgent := Some (nav_userAgent (navigator host));
               stub_vendor := nav_vendor (navigator host);
               stub_maxTouchPoints := maxTouchPoints (navigator host);
               stub_userAgentData := userAgentData (navigator host) |};
     global_document := Some (document host);
     global_Date_now := Date_now host |}.

(** The host that a function sees once it has read the navigator [n] and
    its user agent [ua]: the window and the document are those of the
    globals, with a blank in the place of one that is not declared.  A
    function whose result is computed on this host has read, before,
    every global that it uses. *)
Definition blank_window : Window :=
  {| chrome := None; InstallTrigger := None; safari := None; opera := None;
     innerWidth := 0; ontouchstart := false |}.

Definition blank_document : Document :=
  {| documentMode := None; scratch_element := ProbeThrows |}.

Definition reading (g : Globals) (n : NavigatorStub) (ua : string) : Host :=
  {| window := match global_window g with Some w => w | None => blank_window end;
     navigator := {| nav_userAgent := ua;
                     nav_vendor := stub_vendor n;
                     maxTouchPoints := stub_maxTouchPoints n;
                     userAgentData := stub_userAgentData n |};
     document := match global_document g with Some d => d | None => blank_document end;
     Date_now := global_Date_now g |}.

Definition has_onConnect (w : Window) : bool :=
  match chrome w with
  | Some c => match runtime c with Some r => onConnect r | None => false end
  | None => false
  end.

Definition has_webstore (w : Window) : bool :=
  match chrome w with Some c => webstore c | None => false end.

Definition has_pushNotification (w : Window) : bool :=
  match safari w with Some s => pushNotification s | None => false end.

Definition has_opera_version (w : Window) : bool :=
  match opera w with
  | Some o => match opera_version o with Some v => truthy v | None => false end
  | None => false
  end.

(** [apiDetection]: [window] is read first, [navigator] when neither hook
    of Chrome and Safari is there, [document] when there is no brand list
    and no [window.opera.version]. *)
Definition apiDetection (g : Globals) : Completion DetectionMethodResult :=
  let result := mkMethodResult Unknown 0%float M_apiDetection in
  bind (found (global_window g)) (fun w =>
  if has_onConnect w then Normal (assign result Chrome 0.95%float)
  else if has_pushNotification w then Normal (assign result Safari 0.95%float)
  else
    bind (found (global_navigator g)) (fun n =>
    match match stub_userAgentData n with Some d => brands d | None => None end with
    | Some brands =>
        let hasEdge :=
          existsb (fun b => String.eqb (brand b) "Microsoft Edge") brands in
        Normal (if hasEdge then assign result Edge 0.95%float else result)
    | None =>
        if has_opera_version w then Normal (assign result Opera 0.9%float)
        else
          bind (found (global_document g)) (fun d =>
          Normal (if truthy_number (documentMode d)
                  then assign result InternetExplorer 0.95%float
                  else result))
    end)).

(** [vendorDetection] and [userAgentDetection] begin with
    [navigator.userAgent.toLowerCase()] (and [navigator.vendor], a
    string) and read no other global. *)
Definition vendorDetection (g : Globals) : Completion DetectionMethodResult :=
  bind (found (global_navigator g)) (fun n =>
  bind (found (stub_userAgent n)) (fun ua =>
  Normal (vendorDetection (reading g n ua)))).

Definition userAgentDetection (g : Globals) : Completion DetectionMethodResult :=
  bind (found (global_navigator g)) (fun n =>
  bind (found (stub_userAgent n)) (fun ua =>
  Normal (userAgentDetection (reading g n ua)))).

(** Inside the [try] of [cssDetection]: the next statements run on the
    result as it is; if they throw, the [catch] leaves it as it is. *)
Definition or_caught {A} (result : DetectionMethodResult) (c : Completion A)
           (k : A -> DetectionMethodResult) : DetectionMethodResult :=
  match c with
  | Normal a => k a
  | Throw => result
  end.

(** [cssDetection] lets no exception out: its [try] holds every
    statement that reads a global.  [window] is read only when a prefixed
    property reads back, [navigator.userAgent] after both probes. *)
Definition cssDetection (g : Globals) : DetectionMethodResult :=
  let result := mkMethodResult Unknown 0%float M_cssDetection in
  or_caught result (found (global_document g)) (fun d =>
  match scratch_element d with
  | ProbeThrows => result
  | ProbeReads webkitTransform_set webkitAppearance_set =>
      or_caught result
        (if webkitTransform_set
         then bind (found (global_window g)) (fun w =>
              Normal (if has_webstore w then assign result Chrome 0.7%float else result))
         else Normal result) (fun result =>
      or_caught result
        (if webkitAppearance_set
         then bind (found (global_window g)) (fun w =>
              Normal (if has_pushNotification w
                      then assign result Safari 0.7%float else result))
         else Normal result) (fun result =>
      or_caught result (found (global_navigator g)) (fun n =>
      or_caught result (found (stub_userAgent n)) (fun userAgent =>
      let ua := toLowerCase userAgent in
      if includes ua "edg" || includes ua "edge"
      then assign result Edge 0.7%float
      else if includes ua "android" && includes ua "chrome"
              && includes ua "safari" && String.eqb (stub_vendor n) ""
      then assign result Edge 0.6%float
      else result))))
  end).

(** [detectMobile] and [detectTablet] read [navigator.userAgent], then
    [window] (['ontouchstart' in window], [window.innerWidth]), whatever
    the keywords show. *)
Definition detectMobile (g : Globals) : Completion bool :=
  bind (found (global_navigator g)) (fun n =>
  bind (found (stub_userAgent n)) (fun ua =>
  bind (found (global_window g)) (fun _ =>
  Normal (detectMobile (reading g n ua))))).

Definition detectTablet (g : Globals) : Completion bool :=
  bind (found (global_navigator g)) (fun n =>
  bind (found (stub_userAgent n)) (fun ua =>
  bind (found (global_window g)) (fun _ =>
  Normal (detectTablet (reading g n ua))))).

(** [getBrowserVersion] reads [navigator.userAgent] and calls [match] on
    it for every browser but [Unknown]. *)
Definition getBrowserVersion (g : Globals) (browser : BrowserType)
  : Completion string :=
  bind (found (global_navigator g)) (fun n =>
  match browser with
  | Unknown => Normal "Unknown"
  | _ => bind (found (stub_userAgent n)) (fun ua =>
         Normal (getBrowserVersion (reading g n ua) browser))
  end).

(** [getEngineInfo] builds the whole map, calling
    [getBrowserVersion(browser)] for each entry but the last. *)
Definition getEngineInfo (g : Globals) (browser : BrowserType)
  : Completion EngineInfo :=
  bind (getBrowserVersion g browser) (fun version =>
  Normal match browser with
         | Chrome => mkEngineInfo Blink version
         | Edge => mkEngineInfo Blink version
         | Firefox => mkEngineInfo Gecko version
         | Safari => mkEngineInfo WebKit version
         | Opera => mkEngineInfo Blink version
         | InternetExplorer => mkEngineInfo Trident version
         | Unknown => mkEngineInfo Engine_Unknown "Unknown"
         end).

Definition getOSInfo (g : Globals) : Completion OSInfo :=
  bind (found (global_navigator g)) (fun n =>
  bind (found (stub_userAgent n)) (fun ua =>
  Normal (getOSInfo (reading g n ua)))).

(** The [switch] on the method name. *)
Definition runMethod (g : Globals) (method : DetectionMethod)
  : Completion DetectionMethodResult :=
  match method with
  | M_apiDetection => apiDetection g
  | M_vendorDetection => vendorDetection g
  | M_userAgentDetection => userAgentDetection g
  | M_cssDetection => Normal (cssDetection g)
  end.

(** One turn of the loop: the [try] holds the call and the [push], the
    [catch] only warns. *)
Definition try_method (g : Globals) (methodResults : list DetectionMethodResult)
           (method : DetectionMethod) : list DetectionMethodResult :=
  match runMethod g method with
  | Normal methodResult =>
      if negb (BrowserType_eqb (mr_browser methodResult) Unknown)
      then (methodResults ++ [methodResult])%list
      else methodResults
  | Throw => methodResults
  end.

Definition collect (this : SmartBrowserDetection) (g : Globals)
  : list DetectionMethodResult :=
  fold_left (try_method g) (methods this) [].

(** [detectBrowser()].  Only the calls of the methods stand in a [try]:
    the object literal at the start reads [navigator], and the calls of
    [detectMobile], [detectTablet], [getEngineInfo], [getOSInfo] and
    [getBrowserVersion] after the loop let their exceptions out.  The
    cache is written last, so a call that throws leaves the instance as
    it was. *)
Definition detectBrowser (this : SmartBrowserDetection) (g : Globals)
  : Completion (BrowserDetectionResult * SmartBrowserDetection) :=
  match JsMap.get String.eqb cacheKey (cache this) with
  | Some cached => Normal (cached, this)
  | None =>
      bind (found (global_navigator g)) (fun n =>
      let methodResults := collect this g in
      let browser' :=
        if (0 <? Z.of_nat (List.length methodResults))%Z
        then sel_browser (selectBestResult methodResults)
        else Unknown in
      bind (detectMobile g) (fun isMobile' =>
      bind (detectTablet g) (fun isTablet' =>
      bind (getEngineInfo g browser') (fun engineInfo =>
      bind (getOSInfo g) (fun osInfo =>
      bind (getBrowserVersion g browser') (fun version =>
      (* [navigator.userAgent] is a string here: [detectMobile] has
         called [toLowerCase] on it *)
      bind (found (stub_userAgent n)) (fun userAgent' =>
      let result :=
        {| browser := Unknown;
           browserVersion := "Unknown";
           engine := Engine_Unknown;
           engineVersion := "Unknown";
           platform := None;
           os := OS_Unknown;
           osVersion := "Unknown";
           isMobile := false;
           isTablet := false;
           isDesktop := false;
           confidence := 0%float;
           detectionMethods := [];
           userAgent := userAgent';
           vendor := stub_vendor n;
           timestamp := global_Date_now g |} in
      let result :=
        if (0 <? Z.of_nat (List.length methodResults))%Z
        then Object_assign result (selectBestResult methodResults)
        else result in
      let result :=
        {| browser := browser result;
           browserVersion := version;
           engine := ei_engine engineInfo;
           engineVersion := ei_version engineInfo;
           platform := platform result;
           os := oi_os osInfo;
           osVersion := oi_osVersion osInfo;
           isMobile := isMobile';
           isTablet := isTablet';
           isDesktop := negb isMobile' && negb isTablet';
           confidence := confidence result;
           detectionMethods := detectionMethods result;
           userAgent := userAgent result;
           vendor := vendor result;
           timestamp := timestamp result |} in
      Normal (result,
              {| cache := JsMap.set String.eqb cacheKey result (cache this);
                 methods := methods this |}))))))))
  end.

(** A method yields no candidate when it throws or returns [Unknown]. *)
Definition yields_nothing (g : Globals) (method : DetectionMethod) : Prop :=
  runMethod g method = Throw
  \/ exists r, runMethod g method = Normal r /\ mr_browser r = Unknown.

(** [navigator.userAgent], when [navigator] is declared and it is a
    string. *)
Definition userAgent_string (g : Globals) : option string :=
  match global_navigator g with
  | Some n => stub_userAgent n
  | None => None
  end.

End Untyped.

(** A window and a navigator without a document, as a script finds them
    before the document exists; the user agent names no browser. *)
Definition no_document : Untyped.Globals :=
  {| Untyped.global_window := Some (Examples.bare_window 1920 false);
     Untyped.global_navigator :=
       Some {| Untyped.stub_userAgent := Some "curl/8.5.0";
               Untyped.stub_vendor := "";
               Untyped.stub_maxTouchPoints := 0;
               Untyped.stub_userAgentData := None |};
     Untyped.global_document := None;
     Untyped.global_Date_now := 1700000000000 |}.

(** A page whose [navigator] is a stub without [userAgent]. *)
Definition no_userAgent : Untyped.Globals :=
  {| Untyped.global_window := Some (Examples.bare_window 1920 false);
     Untyped.global_navigator :=
       Some {| Untyped.stub_userAgent := None;
               Untyped.stub_vendor := "";
               Untyped.stub_maxTouchPoints := 0;
               Untyped.stub_userAgentData := None |};
     Untyped.global_document := Some Examples.plain_document;
     Untyped.global_Date_now := 1700000000000 |}.

(** Node 22: a [navigator] with a user agent, no [window], no [document]. *)
Definition no_window : Untyped.Globals :=
  {| Untyped.global_window := None;
     Untyped.global_navigator :=
       Some {| Untyped.stub_userAgent := Some "Node.js/22";
               Untyped.stub_vendor := "";
               Untyped.stub_maxTouchPoints := 0;
               Untyped.stub_userAgentData := None |};
     Untyped.global_document := None;
     Untyped.global_Date_now := 1700000000000 |}.

(** * Properties *)

(** ** Maps *)

Lemma BrowserType_eqb_spec (a b : BrowserType) :
  reflect (a = b) (BrowserType_eqb a b).
Proof. destruct a, b; constructor; congruence. Qed.

Lemma BrowserType_eqb_refl (a : BrowserType) : BrowserType_eqb a a = true.
Proof. now destruct a. Qed.

Section MapFacts.
Context {K V : Type} (eqb : K -> K -> bool).
Hypothesis eqb_spec : forall a b, reflect (a = b) (eqb a b).

Lemma get_set_same (k : K) (v : V) (m : JsMap.t K V) :
  JsMap.get eqb k (JsMap.set eqb k v m) = Some v.
Proof.
  induction m as [|[k' v'] m IH]; simpl.
  - destruct (eqb_spec k k); congruence.
  - destruct (eqb_spec k k') as [->|Hne]; simpl.
    + destruct (eqb_spec k' k'); congruence.
    + destruct (eqb_spec k k'); congruence.
Qed.

Lemma get_set_other (k k' : K) (v : V) (m : JsMap.t K V) :
  k <> k' -> JsMap.get eqb k (JsMap.set eqb k' v m) = JsMap.get eqb k m.
Proof.
  intros Hne. induction m as [|[k0 v0] m IH]; simpl.
  - destruct (eqb_spec k k'); congruence.
  - destruct (eqb_spec k' k0) as [->|Hne0]; simpl.
    + destruct (eqb_spec k k0); congruence.
    + destruct (eqb_spec k k0); congruence.
Qed.

Lemma keys_set (k : K) (v : V) (m : JsMap.t K V) :
  JsMap.map_keys (JsMap.set eqb k v m) =
  if JsMap.has eqb k m then JsMap.map_keys m else (JsMap.map_keys m ++ [k])%list.
Proof.
  unfold JsMap.map_keys, JsMap.has.
  induction m as [|[k' v'] m IH]; simpl; [reflexivity|].
  destruct (eqb_spec k k') as [->|Hne]; simpl; [reflexivity|].
  rewrite IH. now destruct (JsMap.get eqb k m).
Qed.
End MapFacts.

Lemma String_eqb_spec (a b : string) : reflect (a = b) (String.eqb a b).
Proof. apply String.eqb_spec. Qed.

(** ** The cache *)

Section CacheFacts.
Variable run : Host -> DetectionMethod -> Completion DetectionMethodResult.

Lemma detectBrowserWith_hit this host cached :
  JsMap.get String.eqb cacheKey (cache this) = Some cached ->
  detectBrowserWith run this host = (cached, this).
Proof. intros H. unfold detectBrowserWith. now rewrite H. Qed.

Lemma detectBrowserWith_miss this host :
  JsMap.get String.eqb cacheKey (cache this) = None ->
  detectBrowserWith run this host =
  (detect_fresh run this host,
   {| cache := JsMap.set String.eqb cacheKey (detect_fresh run this host)
                         (cache this);
      methods := methods this |}).
Proof. intros H. unfold detectBrowserWith. now rewrite H. Qed.

Lemma detectBrowserWith_fills this host :
  JsMap.get String.eqb cacheKey (cache (snd (detectBrowserWith run this host)))
  = Some (fst (detectBrowserWith run this host)).
Proof.
  destruct (JsMap.get String.eqb cacheKey (cache this)) as [cached|] eqn:H.
  - now rewrite (detectBrowserWith_hit _ _ _ H).
  - rewrite (detectBrowserWith_miss _ _ H). cbn [fst snd cache].
    apply get_set_same, String_eqb_spec.
Qed.
End CacheFacts.

(** C7.  Two calls of [detectBrowser] in a row, whatever the host shows
    at the second one, return the same result, and the second call leaves
    the instance as it found it; after the first call the cache holds the
    key [browser_detection], and on a new instance [getCacheStats] then
    reports size 1 with that one key. *)
Theorem detectBrowser_cached :
  forall (this : SmartBrowserDetection) (host1 host2 : Host),
    let first := detectBrowser this host1 in
    let second := detectBrowser (snd first) host2 in
    fst second = fst first
    /\ snd second = snd first
    /\ JsMap.has String.eqb cacheKey (cache (snd first)) = true
    /\ (1 <= size (getCacheStats (snd first)))%Z
    /\ getCacheStats (snd (detectBrowser constructor host1))
       = {| size := 1; keys := [cacheKey] |}.
Proof.
  intros this host1 host2. cbv zeta. unfold detectBrowser.
  pose proof (detectBrowserWith_fills runMethod this host1) as Hfill.
  rewrite (detectBrowserWith_hit runMethod _ host2 _ Hfill). cbn [fst snd].
  repeat split.
  - unfold JsMap.has. now rewrite Hfill.
  - unfold getCacheStats, JsMap.map_size; cbn [size].
    destruct (cache (snd (detectBrowserWith runMethod this host1)));
      [discriminate Hfill | simpl; lia].
Qed.

(** After [clearCache] the next call computes its result again, from the
    host it then finds. *)
Lemma detectBrowser_after_clearCache (this : SmartBrowserDetection) (host : Host) :
  getCacheStats (clearCache this) = {| size := 0; keys := [] |}
  /\ fst (detectBrowser (clearCache this) host)
     = detect_fresh runMethod (clearCache this) host.
Proof. split; reflexivity. Qed.

(** ** No candidate *)

(** On a host of the declared types every global is there: the methods
    return what they return in the embedding over [Host]. *)
Lemma Untyped_runMethod_of_host (host : Host) (m : DetectionMethod) :
  Untyped.runMethod (Untyped.of_host host) m = runMethod host m.
Proof.
  destruct host as [w [ua v t d] doc now]. destruct m; cbn.
  - unfold apiDetection, chrome_runtime_onConnect, safari_pushNotification,
      opera_has_version. cbn.
    fold (Untyped.has_onConnect w) (Untyped.has_pushNotification w)
         (Untyped.has_opera_version w).
    destruct (Untyped.has_onConnect w); [reflexivity|].
    destruct (Untyped.has_pushNotification w); [reflexivity|].
    destruct d as [[[bs|]]|]; cbn; try reflexivity;
      destruct (Untyped.has_opera_version w); reflexivity.
  - reflexivity.
  - reflexivity.
  - unfold cssDetection, Untyped.cssDetection. cbn.
    destruct (scratch_element doc) as [|a b]; [reflexivity|].
    unfold chrome_webstore, safari_pushNotification. cbn.
    fold (Untyped.has_webstore w) (Untyped.has_pushNotification w).
    destruct a, b; cbn; reflexivity.
Qed.

Lemma Untyped_collect_of_host (this : SmartBrowserDetection) (host : Host) :
  Untyped.collect this (Untyped.of_host host) = collect runMethod this host.
Proof.
  unfold Untyped.collect, collect. generalize (@nil DetectionMethodResult).
  induction (methods this) as [|m ms IH]; intros acc; cbn [fold_left]; [reflexivity|].
  rewrite <- IH. f_equal. unfold Untyped.try_method, try_method.
  now rewrite Untyped_runMethod_of_host.
Qed.

(** On a host of the declared types nothing throws, and the call is the
    one of [detectBrowser]. *)
Lemma Untyped_detectBrowser_of_host (this : SmartBrowserDetection) (host : Host) :
  Untyped.detectBrowser this (Untyped.of_host host) = Normal (detectBrowser this host).
Proof.
  unfold Untyped.detectBrowser, detectBrowser, detectBrowserWith.
  destruct (JsMap.get String.eqb cacheKey (cache this)) as [cached|]; [reflexivity|].
  rewrite Untyped_collect_of_host. unfold detect_fresh.
  generalize (selectBestResult (collect runMethod this host)).
  generalize (Datatypes.length (collect runMethod this host)).
  intros len [b c ms]. destruct host as [w [ua v t d] doc now].
  destruct (0 <? Z.of_nat len)%Z; [destruct b|]; reflexivity.
Qed.

Lemma Untyped_try_method_nothing g acc method :
  Untyped.yields_nothing g method -> Untyped.try_method g acc method = acc.
Proof.
  unfold Untyped.try_method. intros [H | [r [H Hr]]]; rewrite H; [reflexivity|].
  now rewrite Hr.
Qed.

Lemma Untyped_collect_nothing this g :
  (forall m, In m (methods this) -> Untyped.yields_nothing g m) ->
  Untyped.collect this g = [].
Proof.
  unfold Untyped.collect. generalize (@nil DetectionMethodResult).
  induction (methods this) as [|m ms IH]; intros acc H; cbn [fold_left]; [reflexivity|].
  rewrite Untyped_try_method_nothing by (apply H; now left).
  apply IH. intros m' Hm'. apply H. now right.
Qed.

(** C6.  A call of [detectBrowser] that finds the cache empty, on
    globals where every detection method throws or returns [Unknown].
    When [window] is declared and [navigator.userAgent] is a string, the
    exceptions of the methods end in the [catch] of the loop and the call
    returns a result whose browser is [Unknown], whose confidence is 0
    and whose list of detection methods is empty (its versions and
    engine are [Unknown] too), and stores it.  Otherwise the call throws:
    [detectMobile] reads [navigator.userAgent] and [window] after the
    loop, outside every [try]. *)
Theorem detectBrowser_no_candidate :
  forall (this : SmartBrowserDetection) (g : Untyped.Globals),
    JsMap.get String.eqb cacheKey (cache this) = None ->
    (forall m, In m (methods this) -> Untyped.yields_nothing g m) ->
    match Untyped.global_window g, Untyped.userAgent_string g with
    | Some _, Some ua =>
        exists r,
          Untyped.detectBrowser this g
          = Normal (r, {| cache := JsMap.set String.eqb cacheKey r (cache this);
                          methods := methods this |})
          /\ browser r = Unknown
          /\ confidence r = 0%float
          /\ detectionMethods r = []
          /\ browserVersion r = "Unknown"
          /\ engine r = Engine_Unknown
          /\ engineVersion r = "Unknown"
          /\ userAgent r = ua
          /\ isDesktop r = negb (isMobile r) && negb (isTablet r)
    | _, _ => Untyped.detectBrowser this g = Throw
    end.
Proof.
  intros this g Hmiss Hnone.
  unfold Untyped.detectBrowser. rewrite Hmiss.
  rewrite (Untyped_collect_nothing this g Hnone).
  unfold Untyped.userAgent_string, Untyped.detectMobile, Untyped.detectTablet,
    Untyped.getEngineInfo, Untyped.getOSInfo, Untyped.getBrowserVersion.
  destruct (Untyped.global_window g) as [w|],
           (Untyped.global_navigator g) as [[[ua|] v t d]|]; cbn; try reflexivity.
  eexists. repeat split.
Qed.

(** A window and a navigator whose user agent names no browser, without
    a document: [apiDetection] throws at [document.documentMode], the
    three other methods return [Unknown]. *)
Lemma detectBrowser_no_candidate_witness :
  exists r,
    Untyped.detectBrowser constructor no_document
    = Normal (r, {| cache := JsMap.set String.eqb cacheKey r (cache constructor);
                    methods := methods constructor |})
    /\ browser r = Unknown
    /\ confidence r = 0%float
    /\ detectionMethods r = []
    /\ browserVersion r = "Unknown"
    /\ engine r = Engine_Unknown
    /\ engineVersion r = "Unknown"
    /\ userAgent r = "curl/8.5.0"
    /\ isDesktop r = negb (isMobile r) && negb (isTablet r).
Proof.
  apply (detectBrowser_no_candidate constructor no_document).
  - reflexivity.
  - intros m _. destruct m; [left; reflexivity | right | right | right];
      eexists; split; reflexivity.
Defined.

(** C6, as stated, fails.  With a [navigator] that has no [userAgent],
    [vendorDetection] and [userAgentDetection] throw inside the [try],
    the two other methods return [Unknown], and [detectBrowser] throws;
    so it does in Node, where there is no [window]. *)
Lemma detectBrowser_raises_without_userAgent :
  Untyped.runMethod no_userAgent M_apiDetection
  = Normal (mkMethodResult Unknown 0%float M_apiDetection)
  /\ Untyped.runMethod no_userAgent M_vendorDetection = Throw
  /\ Untyped.runMethod no_userAgent M_userAgentDetection = Throw
  /\ Untyped.runMethod no_userAgent M_cssDetection
     = Normal (mkMethodResult Unknown 0%float M_cssDetection)
  /\ Untyped.detectBrowser constructor no_userAgent = Throw
  /\ Untyped.detectBrowser constructor no_window = Throw.
Proof. repeat split. Qed.

(** ** Result selection *)

Lemma lookup_store {V} (b b' : BrowserType) (v : V) (m : JsMap.t BrowserType V) :
  lookup b (store b' v m) = if BrowserType_eqb b b' then Some v else lookup b m.
Proof.
  unfold lookup, store.
  destruct (BrowserType_eqb_spec b b') as [->|Hne].
  - apply get_set_same, BrowserType_eqb_spec.
  - apply get_set_other; [apply BrowserType_eqb_spec | exact Hne].
Qed.

Lemma BrowserType_eqb_sym (a b : BrowserType) :
  BrowserType_eqb a b = BrowserType_eqb b a.
Proof. now destruct a, b. Qed.

Lemma count_all_snoc (l : list DetectionMethodResult) (r : DetectionMethodResult) :
  count_all (l ++ [r]) = count_result (count_all l) r.
Proof. unfold count_all. now rewrite fold_left_app. Qed.

(** [browserResults[b]] is the last candidate that names [b]. *)
Lemma browserResults_last (b : BrowserType) (l : list DetectionMethodResult) :
  lookup b (browserResults (count_all l)) = last_naming b l.
Proof.
  unfold last_naming.
  induction l as [|r l IH] using rev_ind; [reflexivity|].
  rewrite count_all_snoc, rev_app_distr. cbn [count_result browserResults rev app find].
  rewrite lookup_store, IH, (BrowserType_eqb_sym (mr_browser r) b).
  reflexivity.
Qed.

(** [browserCounts[b]] is the number of candidates that name [b]. *)
Lemma browserCounts_votes (b : BrowserType) (l : list DetectionMethodResult) :
  count_or_zero (lookup b (browserCounts (count_all l))) = Z.of_nat (votes b l).
Proof.
  unfold votes, naming.
  induction l as [|r l IH] using rev_ind; [reflexivity|].
  rewrite count_all_snoc, filter_app, length_app.
  cbn [count_result browserCounts filter].
  rewrite lookup_store, (BrowserType_eqb_sym (mr_browser r) b).
  destruct (BrowserType_eqb_spec b (mr_browser r)) as [Heq|Hne];
    cbn [count_or_zero length].
  - rewrite <- Heq, IH. simpl. lia.
  - rewrite IH. simpl. lia.
Qed.

Lemma has_keys {V} (b : BrowserType) (m : JsMap.t BrowserType V) :
  JsMap.has BrowserType_eqb b m = existsb (BrowserType_eqb b) (JsMap.map_keys m).
Proof.
  unfold JsMap.has, JsMap.map_keys.
  induction m as [|[k v] m IH]; simpl; [reflexivity|].
  destruct (BrowserType_eqb b k); [reflexivity | exact IH].
Qed.

(** [Object.keys(browserCounts)] lists the browsers in the order in which
    each first appears among the candidates. *)
Lemma Object_keys_browserCounts (l : list DetectionMethodResult) :
  JsMap.map_keys (browserCounts (count_all l)) = first_seen (List.map mr_browser l).
Proof.
  unfold first_seen.
  induction l as [|r l IH] using rev_ind; [reflexivity|].
  rewrite count_all_snoc, map_app, fold_left_app.
  cbn [count_result browserCounts map fold_left].
  unfold store. rewrite (keys_set BrowserType_eqb BrowserType_eqb_spec).
  rewrite has_keys, IH. reflexivity.
Qed.



Section EdgePriority.
Variable t : Tally.
Hypothesis two_votes : (2 <= count_or_zero (lookup Edge (browserCounts t)))%Z.

(** Visiting Edge makes it the running best, whatever the best was. *)
Lemma consider_Edge (best : BrowserType * float) :
  consider t best Edge = (Edge, score_of t Edge).
Proof.
  unfold consider. cbn [BrowserType_eqb andb].
  now rewrite (proj2 (Z.leb_le _ _) two_votes).
Qed.

(** A browser that does not overtake Edge leaves it the running best. *)
Lemma consider_after_Edge (b : BrowserType) :
  overtakes_Edge t b = false ->
  consider t (Edge, score_of t Edge) b = (Edge, score_of t Edge).
Proof.
  unfold overtakes_Edge. intros H.
  apply orb_false_iff in H. destruct H as [HChrome Hscore].
  destruct (BrowserType_eqb_spec b Edge) as [->|Hne]; [apply consider_Edge|].
  unfold consider. cbn [snd].
  destruct (BrowserType_eqb_spec b Edge) as [|_]; [contradiction|].
  cbn [andb]. now rewrite HChrome, Hscore.
Qed.

Lemma fold_consider_after_Edge (post : list BrowserType) :
  (forall b, In b post -> overtakes_Edge t b = false) ->
  fold_left (consider t) post (Edge, score_of t Edge) = (Edge, score_of t Edge).
Proof.
  induction post as [|b post IH]; intros H; simpl; [reflexivity|].
  rewrite consider_after_Edge by (apply H; now left).
  apply IH. intros b' Hb'. apply H. now right.
Qed.
End EdgePriority.

(** *** The order of the numbers from 0 upwards *)
Lemma Prim2SF_zero : Prim2SF 0 = S754_zero false.
Proof. reflexivity. Qed.

Lemma ltb_zero_above_zero (c : float) :
  PrimFloat.ltb 0 c = above_zero (Prim2SF c).
Proof.
  rewrite ltb_spec, Prim2SF_zero. unfold SFltb.
  destruct (Prim2SF c) as [s|s| |s m e]; try destruct s; reflexivity.
Qed.

Lemma leb_zero_not_below (c : float) :
  PrimFloat.leb 0 c = not_below_zero (Prim2SF c).
Proof.
  rewrite leb_spec, Prim2SF_zero. unfold SFleb.
  destruct (Prim2SF c) as [s|s| |s m e]; try destruct s; reflexivity.
Qed.

Lemma above_not_below x : above_zero x = true -> not_below_zero x = true.
Proof. destruct x as [s|s| |s m e]; try destruct s; auto. Qed.

Lemma SFcompare_refl (x : spec_float) :
  not_below_zero x = true -> SFcompare x x = Some Eq.
Proof.
  destruct x as [s|s| |s m e]; try destruct s; try discriminate; intros _; cbn;
    try reflexivity.
  rewrite Z.compare_refl.
  change (PosDef.Pos.compare_cont Eq m m) with (Pos.compare m m).
  now rewrite Pos.compare_refl.
Qed.

Lemma SFleb_total x y :
  not_below_zero x = true -> not_below_zero y = true ->
  SFltb x y = false -> SFleb y x = true.
Proof.
  unfold SFltb, SFleb.
  destruct x as [s|s| |s m e], y as [s'|s'| |s' m' e'];
    try destruct s; try destruct s'; try discriminate; intros _ _; cbn;
    try reflexivity; try discriminate.
  change (PosDef.Pos.compare_cont Eq m m') with (Pos.compare m m').
  change (PosDef.Pos.compare_cont Eq m' m) with (Pos.compare m' m).
  destruct (Z.compare_spec e e'), (Z.compare_spec e' e); try lia;
    try discriminate; try reflexivity;
    destruct (Pos.compare_spec m m'), (Pos.compare_spec m' m); try lia;
    try discriminate; reflexivity.
Qed.

Lemma SFleb_trans x y z :
  not_below_zero x = true -> not_below_zero y = true -> not_below_zero z = true ->
  SFleb x y = true -> SFleb y z = true -> SFleb x z = true.
Proof.
  unfold SFleb.
  destruct x as [s|s| |s m e], y as [s'|s'| |s' m' e'], z as [s''|s''| |s'' m'' e''];
    try destruct s; try destruct s'; try destruct s''; try discriminate;
    intros _ _ _; cbn; try reflexivity; try discriminate.
  change (PosDef.Pos.compare_cont Eq m m') with (Pos.compare m m').
  change (PosDef.Pos.compare_cont Eq m' m'') with (Pos.compare m' m'').
  change (PosDef.Pos.compare_cont Eq m m'') with (Pos.compare m m'').
  destruct (Z.compare_spec e e'), (Z.compare_spec e' e''), (Z.compare_spec e e'');
    try lia; try discriminate; try reflexivity;
    destruct (Pos.compare_spec m m'), (Pos.compare_spec m' m''), (Pos.compare_spec m m'');
    try lia; try discriminate; reflexivity.
Qed.

Lemma SFltb_leb x y : SFltb x y = true -> SFleb x y = true.
Proof. unfold SFltb, SFleb. now destruct (SFcompare x y) as [[]|]. Qed.

(** The order of the numbers from 0 upwards. *)
Lemma leb_refl (a : float) : PrimFloat.leb 0 a = true -> PrimFloat.leb a a = true.
Proof.
  rewrite leb_zero_not_below, leb_spec. intros H. unfold SFleb.
  now rewrite SFcompare_refl.
Qed.

Lemma leb_trans (a b c : float) :
  PrimFloat.leb 0 a = true -> PrimFloat.leb a b = true -> PrimFloat.leb b c = true ->
  PrimFloat.leb a c = true.
Proof.
  intros Ha Hab Hbc.
  assert (Hb : PrimFloat.leb 0 b = true).
  { revert Ha Hab. rewrite !leb_zero_not_below, leb_spec. unfold SFleb.
    destruct (Prim2SF a) as [s|s| |s m e], (Prim2SF b) as [s'|s'| |s' m' e'];
      try destruct s; try destruct s'; cbn; congruence. }
  assert (Hc : PrimFloat.leb 0 c = true).
  { revert Hb Hbc. rewrite !leb_zero_not_below, leb_spec. unfold SFleb.
    destruct (Prim2SF b) as [s|s| |s m e], (Prim2SF c) as [s'|s'| |s' m' e'];
      try destruct s; try destruct s'; cbn; congruence. }
  revert Ha Hb Hc Hab Hbc. rewrite !leb_zero_not_below, !leb_spec.
  apply SFleb_trans.
Qed.

Lemma leb_total (a b : float) :
  PrimFloat.leb 0 a = true -> PrimFloat.leb 0 b = true ->
  PrimFloat.ltb a b = false -> PrimFloat.leb b a = true.
Proof. rewrite !leb_zero_not_below, ltb_spec, leb_spec. apply SFleb_total. Qed.

Lemma ltb_leb (a b : float) : PrimFloat.ltb a b = true -> PrimFloat.leb a b = true.
Proof. rewrite ltb_spec, leb_spec. apply SFltb_leb. Qed.

(** A number above 0 is a number, is not zero and has the sign [+]. *)
Lemma above_zero_facts (c : float) :
  PrimFloat.ltb 0 c = true ->
  is_nan c = false /\ is_zero c = false /\ get_sign c = false.
Proof.
  rewrite ltb_zero_above_zero. intros H.
  assert (Hz : is_zero c = false).
  { unfold is_zero. rewrite eqb_spec. change (Prim2SF zero) with (S754_zero false).
    unfold SFeqb. destruct (Prim2SF c) as [s|s| |s m e]; try destruct s;
      try discriminate; reflexivity. }
  split; [|split; [exact Hz|]].
  - unfold is_nan. rewrite eqb_spec. unfold SFeqb.
    now rewrite (SFcompare_refl _ (above_not_below _ H)).
  - unfold get_sign. rewrite Hz. rewrite ltb_spec.
    change (Prim2SF zero) with (S754_zero false). unfold SFltb.
    destruct (Prim2SF c) as [s|s| |s m e]; try destruct s; try discriminate; reflexivity.
Qed.

Lemma or_zero_above (c : float) :
  PrimFloat.ltb 0 c = true -> JsNumber.or_zero (Some c) = c.
Proof.
  intros H. destruct (above_zero_facts c H) as (Hn & Hz & _).
  unfold JsNumber.or_zero. now rewrite Hn, Hz.
Qed.

Lemma Math_max_greater (m c : float) :
  m = 0%float \/ PrimFloat.ltb 0 m = true ->
  PrimFloat.ltb 0 c = true ->
  JsNumber.Math_max m c = greater m c.
Proof.
  intros Hm Hc. destruct (above_zero_facts c Hc) as (Hcn & _ & _).
  unfold JsNumber.Math_max, greater. rewrite Hcn, orb_false_r.
  destruct Hm as [-> | Hm].
  - cbn [is_nan]. now rewrite Hc.
  - destruct (above_zero_facts m Hm) as (Hmn & _ & Hms). rewrite Hmn, Hms.
    destruct (PrimFloat.ltb m c); [reflexivity|]. now destruct (PrimFloat.ltb c m).
Qed.

Lemma greater_above (m c : float) :
  PrimFloat.ltb 0 c = true -> m = 0%float \/ PrimFloat.ltb 0 m = true ->
  PrimFloat.ltb 0 (greater m c) = true.
Proof.
  intros Hc Hm. unfold greater.
  destruct (PrimFloat.ltb m c) eqn:E; [exact Hc|].
  destruct Hm as [-> | Hm]; [congruence | exact Hm].
Qed.

(** ** The tally and the candidates *)

Lemma confidences_positive_app (l l' : list DetectionMethodResult) :
  confidences_positive (l ++ l') = confidences_positive l && confidences_positive l'.
Proof. apply forallb_app. Qed.

Lemma naming_snoc (b : BrowserType) (l : list DetectionMethodResult)
      (r : DetectionMethodResult) :
  naming b (l ++ [r])
  = (naming b l ++ if BrowserType_eqb (mr_browser r) b then [r] else [])%list.
Proof. unfold naming. rewrite filter_app. cbn. now destruct (BrowserType_eqb _ b). Qed.

Lemma greatest_confidence_snoc (b : BrowserType) (l : list DetectionMethodResult)
      (r : DetectionMethodResult) :
  greatest_confidence b (l ++ [r])
  = if BrowserType_eqb (mr_browser r) b
    then greater (greatest_confidence b l) (mr_confidence r)
    else greatest_confidence b l.
Proof.
  unfold greatest_confidence. rewrite naming_snoc, fold_left_app.
  now destruct (BrowserType_eqb (mr_browser r) b).
Qed.

(** The greatest confidence is 0 when no candidate names the browser, and
    above 0 otherwise. *)
Lemma greatest_confidence_above (b : BrowserType) (l : list DetectionMethodResult) :
  confidences_positive l = true ->
  match naming b l with
  | [] => greatest_confidence b l = 0%float
  | _ :: _ => PrimFloat.ltb 0 (greatest_confidence b l) = true
  end.
Proof.
  induction l as [|r l IH] using rev_ind; intros Hv; [reflexivity|].
  rewrite confidences_positive_app in Hv. apply andb_prop in Hv. destruct Hv as [Hl Hr].
  cbn in Hr. rewrite andb_true_r in Hr.
  specialize (IH Hl). rewrite naming_snoc, greatest_confidence_snoc.
  destruct (BrowserType_eqb (mr_browser r) b).
  - assert (G : PrimFloat.ltb 0 (greater (greatest_confidence b l) (mr_confidence r))
                = true).
    { apply greater_above; [exact Hr|]. destruct (naming b l); auto. }
    destruct (naming b l); exact G.
  - rewrite app_nil_r. exact IH.
Qed.

(** [browserConfidences[b] || 0] is the greatest confidence among the
    candidates that name [b]. *)
Lemma browserConfidences_greatest (b : BrowserType) (l : list DetectionMethodResult) :
  confidences_positive l = true ->
  lookup b (browserConfidences (count_all l))
  = match naming b l with
    | [] => None
    | _ :: _ => Some (greatest_confidence b l)
    end.
Proof.
  induction l as [|r l IH] using rev_ind; intros Hv; [reflexivity|].
  pose proof Hv as Hv'.
  rewrite confidences_positive_app in Hv. apply andb_prop in Hv. destruct Hv as [Hl Hr].
  cbn in Hr. rewrite andb_true_r in Hr.
  specialize (IH Hl). pose proof (greatest_confidence_above b l Hl) as Ha.
  rewrite count_all_snoc. cbn [count_result browserConfidences].
  rewrite lookup_store, naming_snoc, greatest_confidence_snoc,
    (BrowserType_eqb_sym b (mr_browser r)).
  destruct (BrowserType_eqb_spec (mr_browser r) b) as [E|_].
  - subst b. rewrite IH.
    destruct (naming (mr_browser r) l) as [|x xs].
    + cbn [app JsNumber.or_zero]. rewrite Ha.
      f_equal. apply Math_max_greater; auto.
    + cbn [app]. rewrite (or_zero_above _ Ha).
      f_equal. apply Math_max_greater; auto.
  - now rewrite app_nil_r.
Qed.

Lemma or_zero_browserConfidences (b : BrowserType) (l : list DetectionMethodResult) :
  confidences_positive l = true ->
  JsNumber.or_zero (lookup b (browserConfidences (count_all l)))
  = greatest_confidence b l.
Proof.
  intros Hv. rewrite (browserConfidences_greatest b l Hv).
  pose proof (greatest_confidence_above b l Hv) as Ha.
  destruct (naming b l); [now rewrite Ha | now apply or_zero_above].
Qed.

(** [count * confidence] in the code is the number of votes times the
    greatest confidence. *)
Lemma score_of_count_all (b : BrowserType) (l : list DetectionMethodResult) :
  confidences_positive l = true -> score_of (count_all l) b = score l b.
Proof.
  intros Hv. unfold score_of, score.
  now rewrite browserCounts_votes, (or_zero_browserConfidences b l Hv).
Qed.

(** The greatest confidence is the confidence of a candidate that names
    the browser, and no candidate that names the browser has more. *)
Lemma greatest_confidence_spec (b : BrowserType) (l : list DetectionMethodResult) :
  confidences_positive l = true ->
  (forall r, In r l -> mr_browser r = b ->
             PrimFloat.leb (mr_confidence r) (greatest_confidence b l) = true)
  /\ (naming b l = []
      \/ exists r, In r l /\ mr_browser r = b
                   /\ mr_confidence r = greatest_confidence b l).
Proof.
  induction l as [|r l IH] using rev_ind; intros Hv; [split; [intros r []| now left]|].
  pose proof (greatest_confidence_above b (l ++ [r]) Hv) as Hnew.
  rewrite confidences_positive_app in Hv. apply andb_prop in Hv. destruct Hv as [Hl Hr].
  cbn in Hr. rewrite andb_true_r in Hr.
  destruct (IH Hl) as [Hub Hatt]. pose proof (greatest_confidence_above b l Hl) as Ha.
  assert (Hall : forall x, In x l -> PrimFloat.ltb 0 (mr_confidence x) = true).
  { intros x Hx. unfold confidences_positive in Hl.
    rewrite forallb_forall in Hl. exact (Hl x Hx). }
  revert Hnew. rewrite naming_snoc, greatest_confidence_snoc.
  destruct (BrowserType_eqb_spec (mr_browser r) b) as [E|Hne]; intros Hnew.
  - assert (Hg0 : PrimFloat.leb 0 (greatest_confidence b l) = true).
    { destruct (naming b l); [now rewrite Ha | now apply ltb_leb]. }
    unfold greater. destruct (PrimFloat.ltb (greatest_confidence b l) (mr_confidence r)) eqn:Hlt.
    + split.
      * intros x Hx Hb. apply in_app_or in Hx. destruct Hx as [Hx | [<- | []]].
        -- apply (leb_trans _ (greatest_confidence b l)).
           ++ apply ltb_leb, Hall, Hx.
           ++ now apply Hub.
           ++ now apply ltb_leb.
        -- apply leb_refl, ltb_leb, Hr.
      * right. exists r. split; [apply in_or_app; right; now left | now split].
    + split.
      * intros x Hx Hb. apply in_app_or in Hx. destruct Hx as [Hx | [<- | []]].
        -- now apply Hub.
        -- apply leb_total; [exact Hg0 | apply ltb_leb, Hr | exact Hlt].
      * destruct Hatt as [Hnil | (x & Hx & Hb & Hc)].
        -- rewrite Hnil in Ha. rewrite Ha in Hlt. congruence.
        -- right. exists x. split; [apply in_or_app; now left | now split].
  - split.
    + intros x Hx Hb. apply in_app_or in Hx. destruct Hx as [Hx | [<- | []]];
        [now apply Hub | contradiction].
    + rewrite app_nil_r. destruct Hatt as [Hnil | (x & Hx & Hb & Hc)]; [now left|].
      right. exists x. split; [apply in_or_app; now left | now split].
Qed.

(** Some candidate names [b] with a confidence of [c] or more exactly
    when the greatest confidence of [b] is [c] or more. *)
Lemma names_with_greatest (b : BrowserType) (c : float)
      (l : list DetectionMethodResult) :
  confidences_positive l = true -> PrimFloat.ltb 0 c = true ->
  names_with b c l = PrimFloat.leb c (greatest_confidence b l).
Proof.
  intros Hv Hc. destruct (greatest_confidence_spec b l Hv) as [Hub Hatt].
  destruct (names_with b c l) eqn:E.
  - unfold names_with in E. apply existsb_exists in E. destruct E as (r & Hr & E).
    apply andb_prop in E. destruct E as [Hb Hle].
    destruct (BrowserType_eqb_spec (mr_browser r) b) as [Hb'|]; [|discriminate].
    symmetry. apply (leb_trans _ (mr_confidence r));
      [now apply ltb_leb | exact Hle | now apply Hub].
  - destruct (PrimFloat.leb c (greatest_confidence b l)) eqn:Hle; [|reflexivity].
    destruct Hatt as [Hnil | (r & Hr & Hb & Hcr)].
    + pose proof (greatest_confidence_above b l Hv) as Ha. rewrite Hnil in Ha.
      rewrite Ha in Hle.
      assert (Hz : PrimFloat.leb 0 c = true) by now apply ltb_leb.
      (* c <= 0 and 0 < c *)
      exfalso. revert Hc Hle. rewrite ltb_spec, leb_spec. unfold SFltb, SFleb.
      change (Prim2SF 0) with (S754_zero false).
      destruct (Prim2SF c) as [s|s| |s m e]; try destruct s; cbn; congruence.
    + rewrite <- E. unfold names_with. apply existsb_exists.
      exists r. split; [exact Hr|]. rewrite Hcr, Hle, Hb.
      now rewrite BrowserType_eqb_refl.
Qed.

Lemma overtakes_Edge_count_all (l : list DetectionMethodResult) (b : BrowserType) :
  confidences_positive l = true ->
  overtakes_Edge (count_all l) b = overtakes_Edge_in l b.
Proof.
  intros Hv. unfold overtakes_Edge, overtakes_Edge_in.
  rewrite !(score_of_count_all _ l Hv), (or_zero_browserConfidences b l Hv).
  destruct (BrowserType_eqb_spec b Chrome) as [->|]; [|reflexivity].
  now rewrite (names_with_greatest Chrome 0.9 l Hv eq_refl).
Qed.

Lemma overtakes_Chrome_count_all (l : list DetectionMethodResult) (b : BrowserType) :
  confidences_positive l = true ->
  overtakes_Chrome (count_all l) b = overtakes_Chrome_in l b.
Proof.
  intros Hv. unfold overtakes_Chrome, overtakes_Chrome_in.
  rewrite !(score_of_count_all _ l Hv), browserCounts_votes.
  destruct (BrowserType_eqb_spec b Edge) as [->|]; [|reflexivity].
  cbn [andb]. f_equal.
  destruct (Z.leb_spec 2 (Z.of_nat (votes Edge l))), (Nat.leb_spec 2 (votes Edge l));
    try reflexivity; lia.
Qed.

(** C3, as the code has it.  On candidates whose confidences are numbers
    above 0: when two or more candidates name Edge, Edge is the browser
    returned, whatever the votes, confidences and scores of the browsers
    first seen before it, provided no browser first seen after Edge
    overtakes it (Chrome named by a candidate at 0.9 or more, or a
    browser whose score, its votes times the greatest of its
    confidences, is greater than that of Edge). *)
Theorem selectBestResult_Edge_priority :
  forall (l : list DetectionMethodResult) (pre post : list BrowserType),
    confidences_positive l = true ->
    (2 <= votes Edge l)%nat ->
    first_seen (List.map mr_browser l) = (pre ++ Edge :: post)%list ->
    (forall b, In b post -> overtakes_Edge_in l b = false) ->
    sel_browser (selectBestResult l) = Edge.
Proof.
  intros l pre post Hv Hvotes Hkeys Hpost.
  unfold selectBestResult. cbn [sel_browser]. unfold pick_best.
  rewrite Object_keys_browserCounts, Hkeys, fold_left_app. cbn [fold_left].
  assert (Htwo : (2 <= count_or_zero (lookup Edge (browserCounts (count_all l))))%Z)
    by (rewrite browserCounts_votes; lia).
  rewrite (consider_Edge _ Htwo), (fold_consider_after_Edge _ Htwo post).
  - reflexivity.
  - intros b Hb. rewrite (overtakes_Edge_count_all l b Hv). now apply Hpost.
Qed.

(** The candidates of a phone that shows Chrome on Android with an empty
    vendor: Chrome is seen first, is named at 0.95 and has the greater
    score, and Edge is returned; so it is when Firefox is named once
    after Edge. *)
Lemma selectBestResult_Edge_priority_witness :
  collect runMethod constructor Edge_mobile_on_Android = Chrome_ahead_of_Edge
  /\ names_with Chrome 0.9 Chrome_ahead_of_Edge = true
  /\ PrimFloat.ltb (score Chrome_ahead_of_Edge Edge) (score Chrome_ahead_of_Edge Chrome)
     = true
  /\ sel_browser (selectBestResult Chrome_ahead_of_Edge) = Edge
  /\ sel_browser (selectBestResult Chrome_ahead_of_Edge_then_Firefox) = Edge.
Proof.
  split; [reflexivity|]. split; [reflexivity|]. split; [reflexivity|]. split.
  - apply (selectBestResult_Edge_priority Chrome_ahead_of_Edge [Chrome] []).
    + reflexivity.
    + vm_compute. lia.
    + reflexivity.
    + intros b [].
  - apply (selectBestResult_Edge_priority Chrome_ahead_of_Edge_then_Firefox
             [Chrome] [Firefox]).
    + reflexivity.
    + vm_compute. lia.
    + reflexivity.
    + intros b [<- | []]. reflexivity.
Defined.

(** C3, as stated, fails.  On a user agent that holds "android",
    "chrome", "safari" and "crios" with an empty vendor, vendor and CSS
    detection name Edge and user agent detection names Chrome at 0.95:
    Edge has two votes, Chrome is visited after it, and Chrome is
    returned. *)
Lemma selectBestResult_two_Edge_votes_Chrome_wins :
  collect runMethod constructor
          (Examples.host_of Examples.ua_Android_CriOS ""
                            (Examples.bare_window 412 true)
                            Examples.plain_document)
  = Examples.Edge_then_Chrome
  /\ votes Edge Examples.Edge_then_Chrome = 2%nat
  /\ sel_browser (selectBestResult Examples.Edge_then_Chrome) = Chrome.
Proof. repeat split; vm_compute; reflexivity. Qed.

(** ** Device class *)

(** The three flags of a computed result: [isDesktop] is set exactly when
    the other two are not, so at least one flag is set; exactly one is
    set unless [detectMobile] and [detectTablet] both hold. *)
Lemma detect_fresh_flags :
  forall run (this : SmartBrowserDetection) (host : Host),
    let r := detect_fresh run this host in
    isMobile r = detectMobile host
    /\ isTablet r = detectTablet host
    /\ isDesktop r = negb (detectMobile host) && negb (detectTablet host).
Proof. intros. repeat split. Qed.

(** [getPlatform] names one class, and prefers [Mobile]. *)
Lemma getPlatform_Mobile_first :
  forall host : Host,
    getPlatform host =
    if detectMobile host then Mobile
    else if detectTablet host then Tablet else Desktop.
Proof. reflexivity. Qed.

(** C1 on the user agent of an iPad, which holds both "ipad" and
    "mobile": [detectBrowser] sets [isMobile] and [isTablet] together,
    while [getPlatform] answers [Mobile]. *)
Theorem detectBrowser_iPad_two_flags :
  let r := fst (detectBrowser constructor Examples.iPad) in
  isMobile r = true /\ isTablet r = true /\ isDesktop r = false
  /\ getPlatform Examples.iPad = Mobile.
Proof. vm_compute. repeat split. Qed.

(** ** API detection *)

(** [apiDetection] of [src/index.ts] never answers Firefox. *)
Lemma apiDetection_never_Firefox :
  forall host : Host,
    BrowserType_eqb (mr_browser (apiDetection host)) Firefox = false.
Proof.
  intros host. unfold apiDetection.
  destruct (chrome_runtime_onConnect host); [reflexivity|].
  destruct (safari_pushNotification host); [reflexivity|].
  destruct (userAgentData (navigator host)) as [[[bs|]]|]; cbn zeta beta iota delta [brands];
    repeat match goal with
           | |- context [if ?c then _ else _] => destruct c
           end; reflexivity.
Qed.

(** C4 on a host where [window.InstallTrigger] is present and no other
    hook is: [apiDetection] of [src/index.ts] returns [Unknown] at
    confidence 0, where the second copy of the class returns Firefox at
    0.95. *)
Theorem apiDetection_InstallTrigger_ignored :
  InstallTrigger (window Examples.Firefox_desktop) = Some true
  /\ apiDetection Examples.Firefox_desktop
     = mkMethodResult Unknown 0%float M_apiDetection
  /\ SecondCopy.apiDetection Examples.Firefox_desktop
     = mkMethodResult Firefox 0.95%float M_apiDetection.
Proof. repeat split. Qed.

(** In the second copy the install hook is tested first: when it is
    present the answer is Firefox, whatever else the host shows. *)
Lemma SecondCopy_apiDetection_Firefox_first :
  forall (host : Host) (v : bool),
    InstallTrigger (window host) = Some v ->
    SecondCopy.apiDetection host = mkMethodResult Firefox 0.95%float M_apiDetection.
Proof. intros host v H. unfold SecondCopy.apiDetection. now rewrite H. Qed.

(** The checks that [src/index.ts] does make are tried in the order
    Chrome, Safari, Edge brand list, Opera, Internet Explorer, and a
    brand list without Edge ends the chain. *)
Lemma apiDetection_order :
  forall host : Host,
    (chrome_runtime_onConnect host = true ->
     mr_browser (apiDetection host) = Chrome)
    /\ (chrome_runtime_onConnect host = false ->
        safari_pushNotification host = true ->
        mr_browser (apiDetection host) = Safari)
    /\ (forall bs,
        chrome_runtime_onConnect host = false ->
        safari_pushNotification host = false ->
        userAgentData (navigator host) = Some (mkUAData (Some bs)) ->
        mr_browser (apiDetection host) =
        if existsb (fun b => String.eqb (brand b) "Microsoft Edge") bs
        then Edge else Unknown).
Proof.
  intros host. unfold apiDetection. repeat split.
  - now intros ->.
  - now intros -> ->.
  - intros bs -> -> ->. cbn zeta beta iota delta [brands].
    match goal with
    | |- context [if ?c then _ else _] => destruct c
    end; reflexivity.
Qed.

(** ** Browser version *)

(** In [src/index.ts] a browser whose pattern does not match has the
    version [Unknown]: nothing else is tried. *)
Lemma getBrowserVersion_pattern_fails :
  forall (host : Host),
    let ua := nav_userAgent (navigator host) in
    (regexPatterns.chrome ua = None -> getBrowserVersion host Chrome = "Unknown")
    /\ (regexPatterns.firefox ua = None -> getBrowserVersion host Firefox = "Unknown")
    /\ (regexPatterns.safari ua = None -> getBrowserVersion host Safari = "Unknown")
    /\ (regexPatterns.edge ua = None -> getBrowserVersion host Edge = "Unknown")
    /\ (regexPatterns.opera ua = None -> getBrowserVersion host Opera = "Unknown")
    /\ (regexPatterns.ie ua = None ->
        getBrowserVersion host InternetExplorer = "Unknown").
Proof.
  intros host ua. unfold getBrowserVersion. fold ua.
  repeat split; intros ->; reflexivity.
Qed.

(** C5 on the user agent of Chrome for iOS, which [detectBrowser] labels
    Safari: the pattern of Safari ([version/]) does not match, and the
    version is [Unknown], although the user agent holds dotted numbers,
    the first of them "5.0".  The second copy of the class has the
    last-resort extraction, and finds a version for every browser. *)
Theorem getBrowserVersion_no_last_resort :
  let host := Examples.host_of Examples.ua_Chrome_iOS "Apple Computer, Inc."
                               (Examples.bare_window 390 true)
                               Examples.plain_document in
  browser (fst (detectBrowser constructor host)) = Safari
  /\ regexPatterns.safari Examples.ua_Chrome_iOS = None
  /\ getBrowserVersion host Safari = "Unknown"
  /\ browserVersion (fst (detectBrowser constructor host)) = "Unknown"
  /\ SecondCopy.genericMatch Examples.ua_Chrome_iOS = Some "5.0"
  /\ List.map (getBrowserVersion host) [Chrome; Firefox; Edge; Opera; InternetExplorer]
     = ["Unknown"; "Unknown"; "Unknown"; "Unknown"; "Unknown"]
  /\ List.map (SecondCopy.getBrowserVersion host)
              [Chrome; Firefox; Edge; Opera; InternetExplorer]
     = ["120.0.6099"; "5.0"; "5.0"; "5.0"; "5.0"].
Proof. vm_compute. repeat split. Qed.

(** ** Operating system *)

(** C8 on three user agents of desktop browsers.  Firefox on macOS writes
    the version with a dot, so the pattern of macOS captures nothing;
    Safari on macOS 10.12 has a captured version below the bands of the
    table; Windows XP has a version outside the four the pattern knows.
    In each case the family is recognised and [osVersion] is [Unknown]:
    neither the family name nor the family name with the version.  The
    branches of Android and iOS do fall back to the family name. *)
Theorem getOSInfo_version_Unknown :
  let on ua := getOSInfo (Examples.host_of ua "" (Examples.bare_window 1920 false)
                                           Examples.plain_document) in
  regexPatterns.macos (toLowerCase Examples.ua_Firefox_Mac) = None
  /\ on Examples.ua_Firefox_Mac = {| oi_os := macOS; oi_osVersion := "Unknown" |}
  /\ regexPatterns.macos (toLowerCase Examples.ua_Safari_Sierra) = Some "12"
  /\ on Examples.ua_Safari_Sierra = {| oi_os := macOS; oi_osVersion := "Unknown" |}
  /\ regexPatterns.windows (toLowerCase Examples.ua_Firefox_XP) = None
  /\ on Examples.ua_Firefox_XP = {| oi_os := Windows; oi_osVersion := "Unknown" |}
  /\ on "Mozilla/5.0 (Android 13; Mobile; rv:120.0) Gecko/120.0 Firefox/120.0"
     = {| oi_os := Android; oi_osVersion := "Android" |}
  /\ on Examples.ua_Android_Firefox
     = {| oi_os := Android; oi_osVersion := "Android 4.4" |}.
Proof. vm_compute. repeat split. Qed.

(** ** CSS detection *)

(** C9, as the code has it.  When the scratch element can be built, a
    user agent that holds "edg" or "edge" makes [cssDetection] answer
    Edge at 0.7, whatever the prefixed properties and the hooks of Chrome
    and Safari show: the test of the user agent comes last and overwrites
    what was assigned before it. *)
Theorem cssDetection_Edge_overwrites :
  forall (host : Host) (webkitTransform_set webkitAppearance_set : bool),
    scratch_element (document host)
    = ProbeReads webkitTransform_set webkitAppearance_set ->
    includes (toLowerCase (nav_userAgent (navigator host))) "edg"
    || includes (toLowerCase (nav_userAgent (navigator host))) "edge" = true ->
    cssDetection host = mkMethodResult Edge 0.7%float M_cssDetection.
Proof.
  intros host t a Hprobe Hua. unfold cssDetection. rewrite Hprobe, Hua.
  destruct (t && chrome_webstore host), (a && safari_pushNotification host);
    reflexivity.
Qed.

(** The hooks of Chrome and Safari are present and both prefixed
    properties read back. *)
Lemma cssDetection_Edge_overwrites_witness :
  chrome_webstore Examples.Edge_with_every_hook = true
  /\ safari_pushNotification Examples.Edge_with_every_hook = true
  /\ cssDetection Examples.Edge_with_every_hook
     = mkMethodResult Edge 0.7%float M_cssDetection.
Proof.
  split; [reflexivity | split; [reflexivity|]].
  apply (cssDetection_Edge_overwrites Examples.Edge_with_every_hook true true);
    reflexivity.
Defined.

(** C9, as stated, fails when the scratch element cannot be built (the
    script runs before [document.body] exists): the exception is caught
    and [cssDetection] returns [Unknown] at confidence 0, on a user agent
    of Edge too. *)
Lemma cssDetection_Edge_probe_throws :
  let host := Examples.host_of Examples.ua_Edge "" (Examples.bare_window 1920 false)
                               Examples.headless_document in
  includes (toLowerCase (nav_userAgent (navigator host))) "edg" = true
  /\ cssDetection host = mkMethodResult Unknown 0%float M_cssDetection.
Proof. vm_compute. split; reflexivity. Qed.

(** ** Strings in lower case *)

Lemma fold_lower_char (c : ascii) :
  RegExp.fold_char (lower_char c) = lower_char c.
Proof.
  destruct c as [b0 b1 b2 b3 b4 b5 b6 b7].
  destruct b0, b1, b2, b3, b4, b5, b6, b7; reflexivity.
Qed.

(** On a string in lower case a literal of a pattern matches where it is
    a prefix. *)
Lemma lit_prefix (l s : string) :
  match RegExp.lit l (toLowerCase s) with Some _ => true | None => false end
  = prefix l (toLowerCase s).
Proof.
  revert s. induction l as [|a l IH]; intros s;
    [now destruct (toLowerCase s)|].
  destruct s as [|c s]; [reflexivity|].
  cbn [toLowerCase RegExp.lit prefix]. rewrite fold_lower_char.
  destruct (Ascii.eqb_spec (lower_char c) a) as [->|Hne].
  - destruct (ascii_dec a a) as [_|Hn]; [apply IH | now elim Hn].
  - destruct (ascii_dec a (lower_char c)) as [->|_]; [now elim Hne | reflexivity].
Qed.

Lemma test_includes (l s : string) :
  RegExp.test l (toLowerCase s) = includes (toLowerCase s) l.
Proof.
  unfold RegExp.test.
  induction s as [|c s IH].
  - pose proof (lit_prefix l "") as H. cbn [toLowerCase] in H.
    cbn [toLowerCase RegExp.search includes]. rewrite <- H.
    now destruct (RegExp.lit l "").
  - pose proof (lit_prefix l (String c s)) as H. cbn [toLowerCase] in H.
    cbn [toLowerCase RegExp.search includes]. rewrite <- H.
    destruct (RegExp.lit l (String (lower_char c) (toLowerCase s)));
      [reflexivity | exact IH].
Qed.

Lemma prefix_append (a b s : string) :
  prefix (a ++ b) s = true -> prefix a s = true.
Proof.
  revert s. induction a as [|x a IH]; intros s; [now destruct s|].
  destruct s as [|c s]; cbn [append prefix]; [discriminate|].
  destruct (ascii_dec x c); [apply IH | discriminate].
Qed.

(** A string that holds [a ++ b] holds [a]. *)
Lemma includes_append (s a b : string) :
  includes s (a ++ b) = true -> includes s a = true.
Proof.
  induction s as [|c s IH]; cbn [includes]; intros H.
  - apply orb_true_iff in H. destruct H as [H|H]; [|discriminate].
    now rewrite (prefix_append _ _ _ H).
  - apply orb_true_iff in H. destruct H as [H|H].
    + now rewrite (prefix_append _ _ _ H).
    + rewrite (IH H). apply orb_true_r.
Qed.

Lemma includes_false_append (s a b : string) :
  includes s a = false -> includes s (a ++ b) = false.
Proof.
  intros H. destruct (includes s (a ++ b)) eqn:E; [|reflexivity].
  now rewrite (includes_append _ _ _ E) in H.
Qed.

Lemma orb_includes_append (s a b : string) :
  includes s a || includes s (a ++ b) = includes s a.
Proof.
  destruct (includes s a) eqn:E; [reflexivity|].
  apply includes_false_append, E.
Qed.

(** The tests of [getOSInfo] on the user agent in lower case, read as
    tests for "win", "mac", "linux" or "x11", "android", and "iphone",
    "ipad" or "ipod". *)
Ltac os_cascade ua :=
  unfold getOSInfo; fold ua; unfold ua; rewrite !test_includes; fold ua;
  change "windows" with ("win" ++ "dows");
  change "macintosh" with ("mac" ++ "intosh");
  rewrite !orb_includes_append.

(** The family that [getOSInfo] names, by the tokens of the user agent in
    lower case, in the order of the tests. *)
Lemma getOSInfo_family (host : Host) :
  let ua := toLowerCase (nav_userAgent (navigator host)) in
  oi_os (getOSInfo host) =
  if includes ua "win" then Windows
  else if includes ua "mac" then macOS
  else if includes ua "linux" || includes ua "x11" then Linux
  else if includes ua "android" then Android
  else if includes ua "iphone" || includes ua "ipad" || includes ua "ipod" then iOS
  else OS_Unknown.
Proof.
  intros ua. os_cascade ua.
  destruct (includes ua "win").
  { destruct (regexPatterns.windows ua) as [m|]; [|reflexivity].
    repeat match goal with
           | |- context [if ?c then _ else _] => destruct c
           end; reflexivity. }
  destruct (includes ua "mac").
  { destruct (regexPatterns.macos ua) as [m|]; [|reflexivity].
    repeat match goal with
           | |- context [if ?c then _ else _] => destruct c
           end; reflexivity. }
  destruct (includes ua "linux" || includes ua "x11"); [reflexivity|].
  destruct (includes ua "android").
  { now destruct (regexPatterns.android ua). }
  destruct (includes ua "iphone" || includes ua "ipad" || includes ua "ipod");
    [|reflexivity].
  destruct (regexPatterns.ios ua) as [m|]; [|reflexivity].
  now destruct (truthy m).
Qed.



(** A user agent that holds "linux" and "android" and also "win" (here
    in the name of the device) gets Windows: that test comes first. *)
Lemma getOSInfo_Linux_Android_Windows :
  let host := Examples.host_of Examples.ua_Android_Winnovo "Google Inc."
                               (Examples.bare_window 800 true)
                               Examples.plain_document in
  let ua := toLowerCase (nav_userAgent (navigator host)) in
  includes ua "linux" = true
  /\ includes ua "android" = true
  /\ getOSInfo host = {| oi_os := Windows; oi_osVersion := "Unknown" |}.
Proof. vm_compute. repeat split. Qed.

(** ** What a pattern captures is not empty *)

Lemma digits_truthy (s d r : string) :
  RegExp.digits s = Some (d, r) -> truthy d = true.
Proof.
  unfold RegExp.digits. destruct (RegExp.span_digits s) as [d' r'].
  destruct (truthy d') eqn:E; [|discriminate].
  intros H. injection H as <- _. exact E.
Qed.

Lemma truthy_append (a b : string) : truthy a = true -> truthy (a ++ b) = true.
Proof. now destruct a. Qed.

Lemma two_part_truthy (sep : ascii) (s v r : string) :
  RegExp.two_part sep s = Some (v, r) -> truthy v = true.
Proof.
  unfold RegExp.two_part.
  destruct (RegExp.digits s) as [[a [|c rest]]|] eqn:Ha; try discriminate.
  destruct (Ascii.eqb c sep); [|discriminate].
  destruct (RegExp.digits rest) as [[b r']|]; [|discriminate].
  intros H. injection H as <- _.
  apply truthy_append. exact (digits_truthy _ _ _ Ha).
Qed.

Lemma search_found {A} (m : string -> option A) (s : string) (a : A) :
  RegExp.search m s = Some a -> exists s', m s' = Some a.
Proof.
  induction s as [|c s IH]; cbn [RegExp.search].
  - destruct (m "") eqn:E; [|discriminate]. intros H. exists "". congruence.
  - destruct (m (String c s)) eqn:E.
    + intros H. exists (String c s). congruence.
    + exact IH.
Qed.

Lemma alt_found {A} (ls : list string) (k : string -> option A) (s : string) (a : A) :
  RegExp.alt ls k s = Some a -> exists s', k s' = Some a.
Proof.
  induction ls as [|l ls IH]; cbn [RegExp.alt]; [discriminate|].
  destruct (RegExp.lit l s) as [r|].
  - destruct (k r) eqn:E; [|exact IH]. intros H. exists r. congruence.
  - exact IH.
Qed.

Lemma space_found {A} (k : string -> option A) (s : string) (a : A) :
  RegExp.space k s = Some a -> exists s', k s' = Some a.
Proof.
  unfold RegExp.space. destruct s as [|c s]; [discriminate|].
  destruct (RegExp.is_space c); [|discriminate]. intros H. now exists s.
Qed.

Lemma capture_two_part_truthy (sep : ascii) (s v : string) :
  RegExp.capture (RegExp.two_part sep) s = Some v -> truthy v = true.
Proof.
  unfold RegExp.capture.
  destruct (RegExp.two_part sep s) as [[v' r]|] eqn:E; [|discriminate].
  intros H. injection H as <-. exact (two_part_truthy _ _ _ _ E).
Qed.

(** The version that the Android pattern captures is not empty. *)
Lemma android_truthy (ua v : string) :
  regexPatterns.android ua = Some v -> truthy v = true.
Proof.
  unfold regexPatterns.android, regexPatterns.then_lit. intros H.
  apply search_found in H. destruct H as [s1 H].
  apply alt_found in H. destruct H as [s2 H].
  apply space_found in H. destruct H as [s3 H].
  exact (capture_two_part_truthy _ _ _ H).
Qed.

Lemma ios_truthy (ua v : string) :
  regexPatterns.ios ua = Some v -> truthy v = true.
Proof.
  unfold regexPatterns.ios, regexPatterns.then_lit. intros H.
  apply search_found in H. destruct H as [s1 H].
  apply alt_found in H. destruct H as [s2 H].
  apply space_found in H. destruct H as [s3 H].
  exact (capture_two_part_truthy _ _ _ H).
Qed.

(** The branches of [getOSInfo], one by one.  Android and iOS fall back
    to the family name with the captured version, or to the family name
    alone; Windows and macOS leave [Unknown] when the pattern captures
    nothing, and macOS also when the captured number is below 13. *)
Lemma getOSInfo_branches (host : Host) :
  let ua := toLowerCase (nav_userAgent (navigator host)) in
  (includes ua "win" = true -> regexPatterns.windows ua = None ->
   getOSInfo host = {| oi_os := Windows; oi_osVersion := "Unknown" |})
  /\ (includes ua "win" = false -> includes ua "mac" = true ->
      regexPatterns.macos ua = None ->
      getOSInfo host = {| oi_os := macOS; oi_osVersion := "Unknown" |})
  /\ (forall v, includes ua "win" = false -> includes ua "mac" = true ->
      regexPatterns.macos ua = Some v -> (parseInt v < 13)%N ->
      getOSInfo host = {| oi_os := macOS; oi_osVersion := "Unknown" |})
  /\ (oi_os (getOSInfo host) = Android ->
      oi_osVersion (getOSInfo host) =
      match regexPatterns.android ua with
      | Some v => "Android " ++ v
      | None => "Android"
      end)
  /\ (oi_os (getOSInfo host) = iOS ->
      oi_osVersion (getOSInfo host) =
      match regexPatterns.ios ua with
      | Some v => "iOS " ++ replace_underscores v
      | None => "iOS"
      end).
Proof.
  intros ua.
  assert (Hfam := getOSInfo_family host). cbv zeta in Hfam. fold ua in Hfam.
  repeat split.
  - intros Hwin Hre. os_cascade ua. now rewrite Hwin, Hre.
  - intros Hwin Hmac Hre. os_cascade ua. now rewrite Hwin, Hmac, Hre.
  - intros v Hwin Hmac Hre Hlt. os_cascade ua. rewrite Hwin, Hmac, Hre.
    destruct (truthy v); [|reflexivity].
    destruct (N.leb_spec 15 (parseInt v)); [lia|].
    destruct (N.leb_spec 14 (parseInt v)); [lia|].
    destruct (N.leb_spec 13 (parseInt v)); [lia|].
    reflexivity.
  - rewrite Hfam. os_cascade ua.
    destruct (includes ua "win"); [discriminate|].
    destruct (includes ua "mac"); [discriminate|].
    destruct (includes ua "linux" || includes ua "x11"); [discriminate|].
    destruct (includes ua "android").
    + intros _. destruct (regexPatterns.android ua) as [v|] eqn:E; [|reflexivity].
      cbn [oi_osVersion]. now rewrite (android_truthy _ _ E).
    + now destruct (includes ua "iphone" || includes ua "ipad" || includes ua "ipod").
  - rewrite Hfam. os_cascade ua.
    destruct (includes ua "win"); [discriminate|].
    destruct (includes ua "mac"); [discriminate|].
    destruct (includes ua "linux" || includes ua "x11"); [discriminate|].
    destruct (includes ua "android"); [discriminate|].
    destruct (includes ua "iphone" || includes ua "ipad" || includes ua "ipod");
      [|discriminate].
    intros _. destruct (regexPatterns.ios ua) as [v|] eqn:E; [|reflexivity].
    now rewrite (ios_truthy _ _ E).
Qed.

(** ** The last resort of the second copy *)

Lemma three_part_truthy (s v r : string) :
  SecondCopy.three_part s = Some (v, r) -> truthy v = true.
Proof.
  unfold SecondCopy.three_part.
  destruct (RegExp.two_part "." s) as [[v0 [|c rest]]|] eqn:E; [| |discriminate].
  - intros H. injection H as <- _. exact (two_part_truthy _ _ _ _ E).
  - pose proof (two_part_truthy _ _ _ _ E) as Hv0.
    destruct (Ascii.eqb c ".").
    + destruct (RegExp.digits rest) as [[d r']|]; intros H; injection H as <- _;
        [now apply truthy_append | exact Hv0].
    + intros H. injection H as <- _. exact Hv0.
Qed.

Lemma genericMatch_truthy (ua g : string) :
  SecondCopy.genericMatch ua = Some g -> truthy g = true.
Proof.
  unfold SecondCopy.genericMatch, SecondCopy.version, RegExp.capture. intros H.
  apply search_found in H. destruct H as [s' H].
  destruct (SecondCopy.three_part s') as [[v r]|] eqn:E; [|discriminate].
  injection H as <-. exact (three_part_truthy _ _ _ E).
Qed.

(** Without a brand list, a browser other than [Unknown] whose patterns
    give nothing gets the first dotted number of the user agent, and
    [Unknown] only when the user agent holds none. *)
Lemma SecondCopy_getBrowserVersion_last_resort :
  forall (host : Host) (b : BrowserType),
    userAgentData (navigator host) = None ->
    SecondCopy.version_by_patterns b (nav_userAgent (navigator host)) = "Unknown" ->
    BrowserType_eqb b Unknown = false ->
    SecondCopy.getBrowserVersion host b =
    match SecondCopy.genericMatch (nav_userAgent (navigator host)) with
    | Some g => g
    | None => "Unknown"
    end.
Proof.
  intros host b Hdata Hpat Hb. unfold SecondCopy.getBrowserVersion.
  rewrite Hdata, Hpat, Hb. cbn [String.eqb negb andb].
  destruct (SecondCopy.genericMatch _) as [g|] eqn:E; [|reflexivity].
  now rewrite (genericMatch_truthy _ _ E).
Qed.

(** ** Confidence of a computed result *)

Lemma runMethod_confidence (host : Host) (m : DetectionMethod)
      (r : DetectionMethodResult) :
  runMethod host m = Normal r -> in_unit_interval (mr_confidence r) = true.
Proof.
  destruct m; cbn [runMethod]; intros H; injection H as <-.
  - unfold apiDetection.
    destruct (chrome_runtime_onConnect host); [reflexivity|].
    destruct (safari_pushNotification host); [reflexivity|].
    destruct (userAgentData (navigator host)) as [[[bs|]]|];
      cbn zeta beta iota delta [brands];
      repeat match goal with
             | |- context [if ?c then _ else _] => destruct c
             end; reflexivity.
  - unfold vendorDetection. cbn zeta.
    repeat match goal with
           | |- context [if ?c then _ else _] => destruct c
           end; reflexivity.
  - unfold userAgentDetection. cbn zeta.
    repeat match goal with
           | |- context [if ?c then _ else _] => destruct c
           end; reflexivity.
  - unfold cssDetection. cbn zeta.
    destruct (scratch_element (document host)); [reflexivity|].
    repeat match goal with
           | |- context [if ?c then _ else _] => destruct c
           end; reflexivity.
Qed.

Lemma collect_from_run run (this : SmartBrowserDetection) (host : Host)
      (r : DetectionMethodResult) :
  In r (collect run this host) -> exists m, run host m = Normal r.
Proof.
  unfold collect.
  assert (G : forall ms acc,
             (forall x, In x acc -> exists m, run host m = Normal x) ->
             In r (fold_left (try_method run host) ms acc) ->
             exists m, run host m = Normal r).
  { induction ms as [|m ms IH]; intros acc Hacc; cbn [fold_left].
    - apply Hacc.
    - apply IH. intros x Hx. unfold try_method in Hx.
      destruct (run host m) as [res|] eqn:E; [|now apply Hacc].
      destruct (negb (BrowserType_eqb (mr_browser res) Unknown)); [|now apply Hacc].
      apply in_app_or in Hx. destruct Hx as [Hx|[<-|[]]]; [now apply Hacc|].
      now exists m. }
  apply G. intros x [].
Qed.

Lemma last_naming_In (b : BrowserType) (l : list DetectionMethodResult)
      (r : DetectionMethodResult) :
  last_naming b l = Some r -> In r l.
Proof.
  unfold last_naming. intros H. apply find_some in H.
  apply in_rev. exact (proj1 H).
Qed.

(** The confidence of a result that [detectBrowser] computes lies between
    0 and 1. *)
Theorem detectBrowser_confidence_in_unit_interval :
  forall (this : SmartBrowserDetection) (host : Host),
    in_unit_interval (confidence (detect_fresh runMethod this host)) = true.
Proof.
  intros this host. unfold detect_fresh. cbn [confidence].
  destruct (0 <? Z.of_nat (Datatypes.length (collect runMethod this host)))%Z;
    [|reflexivity].
  cbn [Object_assign confidence]. unfold selectBestResult. cbn [sel_confidence].
  rewrite browserResults_last.
  destruct (last_naming _ _) as [r|] eqn:E; [|reflexivity].
  apply last_naming_In, collect_from_run in E. destruct E as [m Hm].
  exact (runMethod_confidence host m r Hm).
Qed.

(** ** The scenarios of the specification *)

(** A user agent of Edge with an empty vendor is labelled Edge by three
    methods; the hook of Chrome wins over a user agent of Firefox; a user
    agent of Firefox gives the version "120.0" and the engine Gecko;
    Safari on macOS 10.15 gives macOS with the band of 15; a host that
    shows nothing is an unknown desktop browser at confidence 0. *)
Example detectBrowser_scenarios :
  let run host := fst (detectBrowser constructor host) in
  let A := run (Examples.host_of Examples.ua_Edge ""
                                 (Examples.bare_window 1920 false)
                                 Examples.plain_document) in
  let B := run Examples.Chrome_claiming_Firefox in
  let C := run (Examples.host_of
                  "Mozilla/5.0 (Windows NT 10.0; Win64; x64; rv:120.0) Gecko/20100101 Firefox/120.0"
                  "" (Examples.bare_window 1920 false) Examples.plain_document) in
  let D := run (Examples.host_of Examples.ua_Safari_Mac "Apple Computer, Inc."
                                 (Examples.bare_window 1440 false)
                                 Examples.plain_document) in
  let E := run Examples.nothing in
  (browser A = Edge
   /\ detectionMethods A = [M_vendorDetection; M_userAgentDetection; M_cssDetection])
  /\ (browser B = Chrome /\ detectionMethods B = [M_apiDetection])
  /\ (browser C = Firefox /\ browserVersion C = "120.0" /\ engine C = Gecko)
  /\ (browser D = Safari /\ os D = macOS /\ osVersion D = "macOS Big Sur+")
  /\ (browser E = Unknown /\ browserVersion E = "Unknown" /\ isDesktop E = true
      /\ confidence E = 0%float /\ detectionMethods E = []).
Proof. vm_compute. repeat split. Qed.

(** * Further properties *)

(** ** What the methods can return *)

Ltac split_ifs :=
  repeat match goal with
         | |- context [if ?c then _ else _] => destruct c
         end.

Lemma edge_needs_edg (ua : string) :
  includes ua "edg" = false -> includes ua "edge" = false.
Proof. intros H. change "edge" with ("edg" ++ "e"). now apply includes_false_append. Qed.

Lemma method_result_outcome (host : Host) (m : DetectionMethod) :
  In (outcome_of (method_result host m)) (outcomes m)
  /\ mr_method (method_result host m) = m.
Proof.
  destruct m; cbn [method_result outcomes].
  - unfold apiDetection.
    destruct (chrome_runtime_onConnect host); [cbn; auto 10|].
    destruct (safari_pushNotification host); [cbn; auto 10|].
    destruct (userAgentData (navigator host)) as [[[bs|]]|];
      cbn zeta beta iota delta [brands]; split_ifs; cbn; auto 10.
  - unfold vendorDetection. cbn zeta.
    destruct (includes (toLowerCase (nav_userAgent (navigator host))) "edg") eqn:E;
      [cbn; auto 10|].
    rewrite (edge_needs_edg _ E). cbn [orb].
    split_ifs; cbn; auto 10.
  - unfold userAgentDetection. cbn zeta.
    destruct (includes (toLowerCase (nav_userAgent (navigator host))) "edg") eqn:E;
      [cbn; auto 10|].
    rewrite (edge_needs_edg _ E).
    split_ifs; cbn; auto 12.
  - unfold cssDetection. cbn zeta.
    destruct (scratch_element (document host)); [cbn; auto 10|].
    split_ifs; cbn; auto 10.
Qed.

Lemma method_result_eta (host : Host) (m : DetectionMethod) :
  method_result host m =
  mkMethodResult (fst (outcome_of (method_result host m)))
                 (snd (outcome_of (method_result host m))) m.
Proof.
  pose proof (proj2 (method_result_outcome host m)) as H.
  destruct (method_result host m) as [b c m']. cbn in *. now subst.
Qed.

Lemma collect_constructor (host : Host) :
  collect runMethod constructor host =
  candidates_of (outcome_of (apiDetection host)) (outcome_of (vendorDetection host))
                (outcome_of (userAgentDetection host)) (outcome_of (cssDetection host)).
Proof.
  unfold collect, candidates_of. cbn [methods constructor fold_left].
  unfold try_method. cbn [runMethod].
  change (apiDetection host) with (method_result host M_apiDetection).
  change (vendorDetection host) with (method_result host M_vendorDetection).
  change (userAgentDetection host) with (method_result host M_userAgentDetection).
  change (cssDetection host) with (method_result host M_cssDetection).
  rewrite <- (method_result_eta host M_apiDetection),
          <- (method_result_eta host M_vendorDetection),
          <- (method_result_eta host M_userAgentDetection),
          <- (method_result_eta host M_cssDetection).
  cbn [filter].
  destruct (negb (BrowserType_eqb (mr_browser (method_result host M_apiDetection)) Unknown)),
    (negb (BrowserType_eqb (mr_browser (method_result host M_vendorDetection)) Unknown)),
    (negb (BrowserType_eqb (mr_browser (method_result host M_userAgentDetection)) Unknown)),
    (negb (BrowserType_eqb (mr_browser (method_result host M_cssDetection)) Unknown)); reflexivity.
Qed.

Lemma for_all_outcomes_collect (P : list DetectionMethodResult -> bool) (host : Host) :
  for_all_outcomes P = true -> P (collect runMethod constructor host) = true.
Proof.
  unfold for_all_outcomes. intros H. rewrite collect_constructor.
  change (apiDetection host) with (method_result host M_apiDetection).
  change (vendorDetection host) with (method_result host M_vendorDetection).
  change (userAgentDetection host) with (method_result host M_userAgentDetection).
  change (cssDetection host) with (method_result host M_cssDetection).
  rewrite forallb_forall in H.
  specialize (H _ (proj1 (method_result_outcome host M_apiDetection))).
  rewrite forallb_forall in H.
  specialize (H _ (proj1 (method_result_outcome host M_vendorDetection))).
  rewrite forallb_forall in H.
  specialize (H _ (proj1 (method_result_outcome host M_userAgentDetection))).
  rewrite forallb_forall in H.
  exact (H _ (proj1 (method_result_outcome host M_cssDetection))).
Qed.


(** ** The version of a browser *)

Lemma append_assoc (a b c : string) : (a ++ b) ++ c = a ++ (b ++ c).
Proof. induction a; cbn; congruence. Qed.

Lemma span_digits_spec (s d r : string) :
  RegExp.span_digits s = (d, r) ->
  s = d ++ r /\ all_digits d = true
  /\ match r with String c _ => RegExp.is_digit c = false | EmptyString => True end.
Proof.
  revert d r. induction s as [|c s IH]; intros d r; cbn [RegExp.span_digits].
  - intros H. injection H as <- <-. repeat split.
  - destruct (RegExp.is_digit c) eqn:E.
    + destruct (RegExp.span_digits s) as [d' r'].
      intros H. injection H as <- <-.
      destruct (IH d' r' eq_refl) as (-> & Hd & Hr).
      cbn. rewrite E, Hd. repeat split. exact Hr.
    + intros H. injection H as <- <-. cbn. repeat split. exact E.
Qed.

Lemma span_digits_run (d r : string) :
  all_digits d = true ->
  match r with String c _ => RegExp.is_digit c = false | EmptyString => True end ->
  RegExp.span_digits (d ++ r) = (d, r).
Proof.
  induction d as [|c d IH]; cbn [all_digits append]; intros Hd Hr.
  - destruct r as [|c r]; [reflexivity|]. cbn. now rewrite Hr.
  - apply andb_prop in Hd. destruct Hd as [Hc Hd].
    cbn [RegExp.span_digits]. rewrite Hc, (IH Hd Hr). reflexivity.
Qed.

Lemma digits_spec (s d r : string) :
  RegExp.digits s = Some (d, r) ->
  s = d ++ r /\ all_digits d = true /\ truthy d = true
  /\ match r with String c _ => RegExp.is_digit c = false | EmptyString => True end.
Proof.
  unfold RegExp.digits. destruct (RegExp.span_digits s) as [d' r'] eqn:E.
  destruct (truthy d') eqn:T; [|discriminate].
  intros H. injection H as <- <-.
  destruct (span_digits_spec _ _ _ E) as (? & ? & ?). auto.
Qed.

Lemma two_part_spec (s v r : string) :
  RegExp.two_part "." s = Some (v, r) ->
  s = v ++ r /\ is_version v = true.
Proof.
  unfold RegExp.two_part.
  destruct (RegExp.digits s) as [[a [|c rest]]|] eqn:Ha; try discriminate.
  destruct (Ascii.eqb_spec c "."%char) as [->|]; [|discriminate].
  destruct (RegExp.digits rest) as [[b r']|] eqn:Hb; [|discriminate].
  intros H. injection H as <- <-.
  destruct (digits_spec _ _ _ Ha) as (-> & Hda & Hta & _).
  destruct (digits_spec _ _ _ Hb) as (-> & Hdb & Htb & Hr).
  split.
  - now rewrite !append_assoc.
  - unfold is_version, RegExp.two_part, RegExp.digits.
    rewrite (span_digits_run a (String "." b) Hda eq_refl), Hta.
    rewrite Ascii.eqb_refl.
    pose proof (span_digits_run b "" Hdb I) as Hs.
    replace (b ++ "") with b in Hs by (clear; induction b; cbn; congruence).
    now rewrite Hs, Htb.
Qed.

Lemma dotted_within : captures_within regexPatterns.dotted.
Proof.
  intros s v. unfold regexPatterns.dotted, RegExp.capture.
  destruct (RegExp.two_part "." s) as [[v' r]|] eqn:E; [|discriminate].
  intros H. injection H as <-.
  destruct (two_part_spec _ _ _ E) as [-> Hv]. split; [exact Hv|].
  now exists "", r.
Qed.

Lemma lit_split (l s r : string) :
  RegExp.lit l s = Some r -> exists p, s = p ++ r.
Proof.
  revert s. induction l as [|a l IH]; intros s; cbn [RegExp.lit].
  - intros H. injection H as <-. now exists "".
  - destruct s as [|c s]; [discriminate|].
    destruct (Ascii.eqb (RegExp.fold_char c) a); [|discriminate].
    intros H. destruct (IH _ H) as [p ->]. now exists (String c p).
Qed.

Lemma within_shift (p s v : string) :
  (exists p' r, s = p' ++ v ++ r) -> exists p' r, p ++ s = p' ++ v ++ r.
Proof.
  intros (p' & r & ->). exists (p ++ p'), r. now rewrite append_assoc.
Qed.

Lemma alt_within (ls : list string) (k : string -> option string) :
  captures_within k -> captures_within (RegExp.alt ls k).
Proof.
  intros Hk s v. induction ls as [|l ls IH]; cbn [RegExp.alt]; [discriminate|].
  destruct (RegExp.lit l s) as [r|] eqn:El; [|exact IH].
  destruct (k r) as [v'|] eqn:Ek; [|exact IH].
  intros H. injection H as <-.
  destruct (Hk _ _ Ek) as [Hv Hin]. split; [exact Hv|].
  destruct (lit_split _ _ _ El) as [p ->]. now apply within_shift.
Qed.

Lemma space_within (k : string -> option string) :
  captures_within k -> captures_within (RegExp.space k).
Proof.
  intros Hk s v. unfold RegExp.space. destruct s as [|c s]; [discriminate|].
  destruct (RegExp.is_space c); [|discriminate]. intros H.
  destruct (Hk _ _ H) as [Hv Hin]. split; [exact Hv|].
  exact (within_shift (String c "") s v Hin).
Qed.

Lemma search_within (m : string -> option string) :
  captures_within m -> captures_within (RegExp.search m).
Proof.
  intros Hm s v. induction s as [|c s IH]; cbn [RegExp.search].
  - destruct (m "") eqn:E; [|discriminate]. intros H. injection H as <-.
    exact (Hm _ _ E).
  - destruct (m (String c s)) eqn:E.
    + intros H. injection H as <-. exact (Hm _ _ E).
    + intros H. destruct (IH H) as [Hv Hin]. split; [exact Hv|].
      exact (within_shift (String c "") s v Hin).
Qed.

Lemma prefix_append_same (v r : string) : prefix v (v ++ r) = true.
Proof.
  induction v as [|c v IH]; cbn; [now destruct r|].
  destruct (ascii_dec c c); [exact IH | congruence].
Qed.

Lemma includes_within (s v : string) :
  (exists p r, s = p ++ v ++ r) -> includes s v = true.
Proof.
  intros (p & r & ->). induction p as [|c p IH].
  - cbn [append]. destruct (v ++ r) eqn:E; cbn [includes];
      rewrite <- E, prefix_append_same; reflexivity.
  - cbn [append includes]. rewrite IH. apply orb_true_r.
Qed.

Lemma group1_version (m : string -> option string) (ua : string) :
  captures_within m ->
  group1_or_Unknown (m ua) = "Unknown"
  \/ (is_version (group1_or_Unknown (m ua)) = true
      /\ includes ua (group1_or_Unknown (m ua)) = true).
Proof.
  intros Hm. unfold group1_or_Unknown.
  destruct (m ua) as [v|] eqn:E; [|now left].
  destruct (truthy v); [|now left]. right.
  destruct (Hm _ _ E) as [Hv Hin]. split; [exact Hv|].
  now apply includes_within.
Qed.

(** [getBrowserVersion] never invents a version: its answer is "Unknown",
    or a number of the form digits, dot, digits that occurs in
    [navigator.userAgent] as it stands. *)
Theorem getBrowserVersion_is_a_version_of_the_userAgent :
  forall (host : Host) (b : BrowserType),
    getBrowserVersion host b = "Unknown"
    \/ (is_version (getBrowserVersion host b) = true
        /\ includes (nav_userAgent (navigator host)) (getBrowserVersion host b) = true).
Proof.
  intros host b. unfold getBrowserVersion.
  destruct b; try (now left);
    try (apply group1_version; unfold regexPatterns.chrome, regexPatterns.firefox,
           regexPatterns.safari, regexPatterns.edge, regexPatterns.opera,
           regexPatterns.then_lit;
         repeat first [apply search_within | apply alt_within | apply space_within
                      | apply dotted_within]).
  (* Internet Explorer *)
  set (ua := nav_userAgent (navigator host)).
  pose (m := RegExp.search (fun s =>
     match regexPatterns.then_lit "msie" (RegExp.space regexPatterns.dotted) s with
     | Some v => Some v
     | None => regexPatterns.then_lit "rv:" regexPatterns.dotted s
     end)).
  assert (Hm : captures_within m).
  { apply search_within. intros s v.
    destruct (regexPatterns.then_lit "msie" (RegExp.space regexPatterns.dotted) s) eqn:E.
    - intros H. injection H as <-. revert E.
      apply alt_within, space_within, dotted_within.
    - apply alt_within, dotted_within. }
  assert (Hie : group1_or_group2_or_Unknown (regexPatterns.ie ua)
                = group1_or_Unknown (m ua)).
  { unfold regexPatterns.ie, m. generalize ua. clear. intros ua.
    assert (G : forall v, group1_or_group2_or_Unknown (Some (Some v, None))
                          = group1_or_Unknown (Some v)).
    { intros v. unfold group1_or_group2_or_Unknown, group_or, group1_or_Unknown.
      destruct (truthy v) eqn:T; [now rewrite T | reflexivity]. }
    assert (G' : forall v, group1_or_group2_or_Unknown (Some (None, Some v))
                           = group1_or_Unknown (Some v)) by reflexivity.
    induction ua as [|c ua IH]; cbn [RegExp.search].
    - destruct (regexPatterns.then_lit "msie" _ "") as [v|]; [apply G|].
      destruct (regexPatterns.then_lit "rv:" _ "") as [v|]; [apply G' | reflexivity].
    - destruct (regexPatterns.then_lit "msie" _ (String c ua)) as [v|]; [apply G|].
      destruct (regexPatterns.then_lit "rv:" _ (String c ua)) as [v|];
        [apply G' | exact IH]. }
  rewrite Hie. now apply group1_version.
Qed.

(** ** More on the selection *)

Lemma consider_choice (t : Tally) (best : BrowserType * float) (b : BrowserType) :
  fst (consider t best b) = b \/ consider t best b = best.
Proof.
  unfold consider.
  repeat match goal with
         | |- context [if ?c then _ else _] => destruct c
         end; auto.
Qed.

Lemma fold_consider_choice (t : Tally) (ks : list BrowserType) (best : BrowserType * float) :
  In (fst (fold_left (consider t) ks best)) ks
  \/ fold_left (consider t) ks best = best.
Proof.
  revert best. induction ks as [|k ks IH]; intros best; cbn [fold_left]; [now right|].
  destruct (IH (consider t best k)) as [H|H].
  - left. now right.
  - rewrite H. destruct (consider_choice t best k) as [E|E].
    + left. now left.
    + now right.
Qed.

Lemma first_seen_In (bs : list BrowserType) (b : BrowserType) :
  In b (first_seen bs) -> In b bs.
Proof.
  unfold first_seen.
  assert (G : forall bs acc, In b (fold_left (fun seen b0 =>
              if existsb (BrowserType_eqb b0) seen then seen else (seen ++ [b0])%list) bs acc)
              -> In b acc \/ In b bs).
  { clear. induction bs as [|x bs IH]; intros acc H; cbn [fold_left] in H; [now left|].
    apply IH in H. destruct H as [H|H]; [|right; now right].
    destruct (existsb (BrowserType_eqb x) acc); [now left|].
    apply in_app_or in H. destruct H as [H|[<-|[]]]; [now left|right; now left]. }
  intros H. apply G in H. now destruct H.
Qed.

Lemma votes_positive (b : BrowserType) (l : list DetectionMethodResult) :
  In b (List.map mr_browser l) -> (1 <= votes b l)%nat.
Proof.
  unfold votes, naming. intros H. apply in_map_iff in H. destruct H as (r & <- & Hr).
  assert (Hf : In r (filter (fun r0 => BrowserType_eqb (mr_browser r0) (mr_browser r)) l)).
  { apply filter_In. split; [exact Hr | apply BrowserType_eqb_refl]. }
  destruct (filter _ l); [destruct Hf | cbn; lia].
Qed.

Lemma sel_browser_voted (l : list DetectionMethodResult) :
  sel_browser (selectBestResult l) = Unknown
  \/ (1 <= votes (sel_browser (selectBestResult l)) l)%nat.
Proof.
  unfold selectBestResult. cbn [sel_browser]. unfold pick_best.
  destruct (fold_consider_choice (count_all l)
              (JsMap.map_keys (browserCounts (count_all l))) (Unknown, 0%float)) as [H|H].
  - right. apply votes_positive, first_seen_In.
    now rewrite <- Object_keys_browserCounts.
  - left. now rewrite H.
Qed.

(** [selectBestResult] never invents a browser: the methods it lists are
    as many as the candidates that name the selected browser, and the
    selected browser is [Unknown] or is named by a candidate. *)
Theorem selectBestResult_names_a_candidate :
  forall l : list DetectionMethodResult,
    let s := selectBestResult l in
    List.length (sel_detectionMethods s) = votes (sel_browser s) l
    /\ (sel_browser s = Unknown \/ (1 <= votes (sel_browser s) l)%nat).
Proof.
  intros l. cbv zeta. split.
  - unfold selectBestResult. cbn [sel_detectionMethods sel_browser].
    unfold votes, naming. apply length_map.
  - apply sel_browser_voted.
Qed.

(** *** The priority of Chrome *)

Section ChromePriority.
Variable t : Tally.
Hypothesis confident :
  PrimFloat.leb 0.9 (JsNumber.or_zero (lookup Chrome (browserConfidences t))) = true.

Lemma consider_Chrome (best : BrowserType * float) :
  consider t best Chrome = (Chrome, score_of t Chrome).
Proof. unfold consider. cbn [BrowserType_eqb andb]. now rewrite confident. Qed.

Lemma consider_after_Chrome (b : BrowserType) :
  overtakes_Chrome t b = false ->
  consider t (Chrome, score_of t Chrome) b = (Chrome, score_of t Chrome).
Proof.
  unfold overtakes_Chrome. intros H.
  apply orb_false_iff in H. destruct H as [HEdge Hscore].
  destruct (BrowserType_eqb_spec b Chrome) as [->|Hne]; [apply consider_Chrome|].
  unfold consider. cbn [snd]. rewrite HEdge, Hscore.
  destruct (BrowserType_eqb_spec b Chrome) as [|_]; [contradiction|]. reflexivity.
Qed.

Lemma fold_consider_after_Chrome (post : list BrowserType) :
  (forall b, In b post -> overtakes_Chrome t b = false) ->
  fold_left (consider t) post (Chrome, score_of t Chrome) = (Chrome, score_of t Chrome).
Proof.
  induction post as [|b post IH]; intros H; simpl; [reflexivity|].
  rewrite consider_after_Chrome by (apply H; now left).
  apply IH. intros b' Hb'. apply H. now right.
Qed.
End ChromePriority.

(** The priority of Chrome.  On candidates whose confidences are numbers
    above 0: when some candidate names Chrome with a confidence of 0.9 or
    more, Chrome is selected, whatever the votes and scores of the
    browsers first seen before it, unless a browser first seen after
    Chrome is Edge with two votes or has a greater score. *)
Theorem selectBestResult_Chrome_priority :
  forall (l : list DetectionMethodResult) (pre post : list BrowserType),
    confidences_positive l = true ->
    names_with Chrome 0.9 l = true ->
    first_seen (List.map mr_browser l) = (pre ++ Chrome :: post)%list ->
    (forall b, In b post -> overtakes_Chrome_in l b = false) ->
    sel_browser (selectBestResult l) = Chrome.
Proof.
  intros l pre post Hv Hconf Hkeys Hpost.
  assert (Hc : PrimFloat.leb 0.9
                 (JsNumber.or_zero (lookup Chrome (browserConfidences (count_all l))))
               = true).
  { rewrite (or_zero_browserConfidences Chrome l Hv).
    now rewrite <- (names_with_greatest Chrome 0.9 l Hv eq_refl). }
  unfold selectBestResult. cbn [sel_browser]. unfold pick_best.
  rewrite Object_keys_browserCounts, Hkeys, fold_left_app. cbn [fold_left].
  rewrite (consider_Chrome _ Hc), (fold_consider_after_Chrome _ Hc post).
  - reflexivity.
  - intros b Hb. rewrite (overtakes_Chrome_count_all l b Hv). now apply Hpost.
Qed.

(** Three candidates name Safari, whose score is the greater, and one
    names Chrome at 0.95: Chrome is selected. *)
Lemma selectBestResult_Chrome_priority_witness :
  votes Safari Safari_thrice_then_Chrome = 3%nat
  /\ PrimFloat.ltb (score Safari_thrice_then_Chrome Chrome)
                   (score Safari_thrice_then_Chrome Safari) = true
  /\ sel_browser (selectBestResult Safari_thrice_then_Chrome) = Chrome.
Proof.
  split; [reflexivity|]. split; [reflexivity|].
  apply (selectBestResult_Chrome_priority Safari_thrice_then_Chrome [Safari] []).
  - reflexivity.
  - reflexivity.
  - reflexivity.
  - intros b [].
Defined.

(** ** The result of [detectBrowser] on a new instance *)

Lemma detect_constructor (host : Host) :
  fst (detectBrowser constructor host) = detect_fresh runMethod constructor host.
Proof. reflexivity. Qed.

(** A candidate is the result of the method that it names. *)
Lemma collect_member (this : SmartBrowserDetection) (host : Host)
      (r : DetectionMethodResult) :
  In r (collect runMethod this host) -> r = method_result host (mr_method r).
Proof.
  intros H. apply collect_from_run in H. destruct H as [m Hm].
  assert (E : r = method_result host m)
    by (destruct m; cbn [runMethod] in Hm; injection Hm as <-; reflexivity).
  rewrite E at 2. now rewrite (proj2 (method_result_outcome host m)).
Qed.

Lemma collect_known (this : SmartBrowserDetection) (host : Host)
      (r : DetectionMethodResult) :
  In r (collect runMethod this host) -> BrowserType_eqb (mr_browser r) Unknown = false.
Proof.
  unfold collect.
  assert (G : forall ms acc,
             (forall x, In x acc -> BrowserType_eqb (mr_browser x) Unknown = false) ->
             In r (fold_left (try_method runMethod host) ms acc) ->
             BrowserType_eqb (mr_browser r) Unknown = false).
  { induction ms as [|m ms IH]; intros acc Hacc; cbn [fold_left]; [apply Hacc|].
    apply IH. intros x Hx. unfold try_method in Hx.
    destruct (runMethod host m) as [res|]; [|now apply Hacc].
    destruct (BrowserType_eqb (mr_browser res) Unknown) eqn:E; cbn [negb] in Hx;
      [now apply Hacc|].
    apply in_app_or in Hx. destruct Hx as [Hx|[<-|[]]]; [now apply Hacc | exact E]. }
  apply G. intros x [].
Qed.

Lemma filter_head_find {A} (f : A -> bool) (l : list A) :
  List.find f l = match List.filter f l with x :: _ => Some x | [] => None end.
Proof.
  induction l as [|a l IH]; cbn; [reflexivity|]. now destruct (f a).
Qed.

Lemma filter_rev {A} (f : A -> bool) (l : list A) :
  List.filter f (List.rev l) = List.rev (List.filter f l).
Proof.
  induction l as [|a l IH]; cbn; [reflexivity|].
  rewrite filter_app, IH. cbn. destruct (f a); cbn; [reflexivity|].
  now rewrite app_nil_r.
Qed.

(** The shape of a computed result, by the candidates. *)
Lemma detect_fresh_selection (this : SmartBrowserDetection) (host : Host) :
  let l := collect runMethod this host in
  let r := detect_fresh runMethod this host in
  (l = [] /\ browser r = Unknown /\ confidence r = 0%float /\ detectionMethods r = [])
  \/ (l <> [] /\ browser r = sel_browser (selectBestResult l)
      /\ confidence r = sel_confidence (selectBestResult l)
      /\ detectionMethods r = sel_detectionMethods (selectBestResult l)).
Proof.
  cbv zeta. unfold detect_fresh.
  destruct (collect runMethod this host) as [|c l] eqn:E.
  - left. cbn. repeat split.
  - right. cbn. repeat split. discriminate.
Qed.

(** The methods that a result lists are the methods that named its
    browser on this host, its confidence is the confidence of the last of
    them, and the list is empty exactly when the browser is [Unknown]. *)
Theorem detectBrowser_methods_name_the_browser :
  forall (host : Host),
    let r := fst (detectBrowser constructor host) in
    (forall m, In m (detectionMethods r) ->
               mr_browser (method_result host m) = browser r)
    /\ match List.rev (detectionMethods r) with
       | m :: _ => confidence r = mr_confidence (method_result host m)
       | [] => confidence r = 0%float
       end
    /\ (detectionMethods r = [] <-> browser r = Unknown).
Proof.
  intros host. cbv zeta. rewrite detect_constructor.
  destruct (detect_fresh_selection constructor host)
    as [(Hl & Hb & Hc & Hm) | (Hl & Hb & Hc & Hm)]; rewrite Hb, Hc, Hm.
  - repeat split; intros; try reflexivity. destruct H.
  - set (l := collect runMethod constructor host) in *.
    set (w := sel_browser (selectBestResult l)).
    assert (Hmeth : sel_detectionMethods (selectBestResult l)
                    = List.map mr_method (naming w l)) by reflexivity.
    rewrite Hmeth. repeat split.
    + intros m Hin. apply in_map_iff in Hin. destruct Hin as (x & <- & Hx).
      unfold naming in Hx. apply filter_In in Hx. destruct Hx as [Hx Hw].
      rewrite <- (collect_member constructor host x Hx).
      now destruct (BrowserType_eqb_spec (mr_browser x) w).
    + rewrite <- map_rev. unfold naming. rewrite <- filter_rev.
      unfold selectBestResult. cbn [sel_confidence]. rewrite browserResults_last.
      unfold last_naming. fold l. fold w.
      rewrite filter_head_find.
      destruct (filter _ (rev l)) as [|x xs] eqn:E; cbn [map]; [reflexivity|].
      assert (Hx : In x l).
      { apply in_rev. eapply proj1. apply filter_In. rewrite E. now left. }
      now rewrite <- (collect_member constructor host x Hx).
    + intros Hnil.
      destruct (sel_browser_voted l) as [HU|Hv]; [exact HU|].
      fold w in Hv. unfold votes in Hv.
      apply (f_equal (@List.length _)) in Hnil. rewrite length_map in Hnil.
      rewrite Hnil in Hv. cbn in Hv. lia.
    + intros HU. unfold naming.
      destruct (filter _ l) as [|x xs] eqn:E; [reflexivity|].
      assert (Hx : In x (filter (fun r => BrowserType_eqb (mr_browser r) w) l))
        by (rewrite E; now left).
      apply filter_In in Hx. destruct Hx as [Hx Hw].
      pose proof (collect_known constructor host x Hx) as Hk.
      fold w in HU. rewrite HU in Hw. congruence.
Qed.

Lemma collect_empty_iff (host : Host) :
  collect runMethod constructor host = [] <->
  (forall m, mr_browser (method_result host m) = Unknown).
Proof.
  rewrite collect_constructor. unfold candidates_of, outcome_of. cbn [fst snd filter mr_browser].
  split.
  - intros H m.
    destruct (BrowserType_eqb_spec (mr_browser (apiDetection host)) Unknown) as [Ea|];
      cbn [negb] in H; [|discriminate].
    destruct (BrowserType_eqb_spec (mr_browser (vendorDetection host)) Unknown) as [Ev|];
      cbn [negb] in H; [|discriminate].
    destruct (BrowserType_eqb_spec (mr_browser (userAgentDetection host)) Unknown) as [Eu|];
      cbn [negb] in H; [|discriminate].
    destruct (BrowserType_eqb_spec (mr_browser (cssDetection host)) Unknown) as [Ec|];
      cbn [negb] in H; [|discriminate].
    now destruct m.
  - intros H.
    rewrite (H M_apiDetection : mr_browser (apiDetection host) = _),
            (H M_vendorDetection : mr_browser (vendorDetection host) = _),
            (H M_userAgentDetection : mr_browser (userAgentDetection host) = _),
            (H M_cssDetection : mr_browser (cssDetection host) = _).
    reflexivity.
Qed.

(** A new instance answers [Unknown] exactly when each of the four
    methods answers [Unknown] on the host; the confidence is then 0, and
    otherwise it lies between 0.6 and 0.95. *)
Theorem detectBrowser_Unknown_iff_no_candidate :
  forall host : Host,
    let r := fst (detectBrowser constructor host) in
    (browser r = Unknown <-> forall m, mr_browser (method_result host m) = Unknown)
    /\ (browser r = Unknown /\ confidence r = 0%float
        \/ BrowserType_eqb (browser r) Unknown = false
           /\ PrimFloat.leb 0.6 (confidence r) = true
           /\ PrimFloat.leb (confidence r) 0.95 = true).
Proof.
  intros host. cbv zeta. rewrite detect_constructor.
  pose proof (for_all_outcomes_collect known_and_scored host eq_refl) as P.
  unfold known_and_scored in P.
  destruct (detect_fresh_selection constructor host)
    as [(Hl & Hb & Hc & Hm) | (Hl & Hb & Hc & Hm)]; rewrite Hb, Hc.
  - split; [|now left]. split; [|reflexivity].
    intros _. now apply collect_empty_iff.
  - destruct (collect runMethod constructor host) as [|c l] eqn:E; [contradiction|].
    cbn [is_empty orb] in P.
    apply andb_prop in P. destruct P as [P P3]. apply andb_prop in P. destruct P as [P1 P2].
    apply negb_true_iff in P1.
    split; [|right; auto].
    split.
    + intros HU. rewrite HU in P1. discriminate.
    + intros H. apply collect_empty_iff in H. congruence.
Qed.

(** When every method names the browser [b] or none, and some method
    names [b], the answer is [b]. *)
Theorem detectBrowser_unanimous :
  forall (host : Host) (b : BrowserType) (m0 : DetectionMethod),
    (forall m, mr_browser (method_result host m) = b
               \/ mr_browser (method_result host m) = Unknown) ->
    mr_browser (method_result host m0) = b ->
    browser (fst (detectBrowser constructor host)) = b.
Proof.
  intros host b m0 H H0. rewrite detect_constructor.
  pose proof (for_all_outcomes_collect unanimous_wins host eq_refl) as P.
  destruct (detect_fresh_selection constructor host)
    as [(Hl & Hb & Hc & Hm) | (Hl & Hb & Hc & Hm)]; rewrite Hb.
  - rewrite <- H0. symmetry. now apply collect_empty_iff.
  - assert (Hall : forall x, In x (collect runMethod constructor host) ->
                             mr_browser x = b).
    { intros x Hx. pose proof (collect_known _ _ _ Hx) as Hk.
      rewrite (collect_member _ _ _ Hx) in Hk |- *.
      destruct (H (mr_method x)) as [E|E]; [exact E|]. rewrite E in Hk. discriminate. }
    destruct (collect runMethod constructor host) as [|c l] eqn:E; [contradiction|].
    cbn [unanimous_wins] in P.
    assert (Hf : forallb (fun x => BrowserType_eqb (mr_browser x) (mr_browser c)) l = true).
    { apply forallb_forall. intros x Hx.
      rewrite (Hall x (or_intror Hx)), (Hall c (or_introl eq_refl)).
      apply BrowserType_eqb_refl. }
    rewrite Hf in P. cbn [negb orb] in P.
    destruct (BrowserType_eqb_spec (sel_browser (selectBestResult (c :: l))) (mr_browser c))
      as [->|]; [|discriminate].
    apply Hall. now left.
Qed.

(** A result that lists [cssDetection] among its methods has a confidence
    of at most 0.7: [confidenceBasedDetection] never prints its message
    of high confidence for it. *)
Theorem detectBrowser_cssDetection_caps_confidence :
  forall host : Host,
    let r := fst (detectBrowser constructor host) in
    In M_cssDetection (detectionMethods r) ->
    PrimFloat.leb (confidence r) 0.7 = true
    /\ (confidenceBasedDetection r = Medium_confidence
        \/ confidenceBasedDetection r = Low_confidence).
Proof.
  intros host. cbv zeta. rewrite detect_constructor.
  pose proof (for_all_outcomes_collect css_caps_confidence host eq_refl) as P.
  unfold css_caps_confidence in P.
  destruct (detect_fresh_selection constructor host)
    as [(Hl & Hb & Hc & Hm) | (Hl & Hb & Hc & Hm)].
  - rewrite Hm. intros [].
  - intros Hin.
    assert (Hle : PrimFloat.leb (confidence (detect_fresh runMethod constructor host)) 0.7
                  = true).
    { rewrite Hc. rewrite Hm in Hin.
      assert (E : existsb is_cssDetection
                    (sel_detectionMethods
                       (selectBestResult (collect runMethod constructor host))) = true).
      { apply existsb_exists. exists M_cssDetection. now split. }
      rewrite E in P. exact P. }
    split; [exact Hle|].
    unfold confidenceBasedDetection.
    revert Hle. rewrite Hc.
    pose proof (for_all_outcomes_collect css_not_high host eq_refl) as Q.
    unfold css_not_high in Q. rewrite Hm in Hin.
    assert (E : existsb is_cssDetection
                  (sel_detectionMethods
                     (selectBestResult (collect runMethod constructor host))) = true).
    { apply existsb_exists. exists M_cssDetection. now split. }
    rewrite E in Q. cbn [negb orb] in Q. apply negb_true_iff in Q.
    intros _. rewrite Q.
    destruct (PrimFloat.leb 0.7 _); auto.
Qed.

(** On the iPad the vendor and the user agent name Safari and the two
    other methods name nothing: the answer is Safari. *)
Lemma detectBrowser_unanimous_witness :
  browser (fst (detectBrowser constructor Examples.iPad)) = Safari.
Proof.
  apply (detectBrowser_unanimous Examples.iPad Safari M_vendorDetection).
  - intros m. destruct m; vm_compute; auto.
  - reflexivity.
Defined.

(** Edge with the hooks of Chrome and Safari: the result lists
    [cssDetection]. *)
Lemma detectBrowser_cssDetection_caps_confidence_witness :
  PrimFloat.leb (confidence (fst (detectBrowser constructor Examples.Edge_with_every_hook)))
                0.7 = true
  /\ (confidenceBasedDetection (fst (detectBrowser constructor Examples.Edge_with_every_hook))
      = Medium_confidence
      \/ confidenceBasedDetection (fst (detectBrowser constructor Examples.Edge_with_every_hook))
         = Low_confidence).
Proof.
  apply (detectBrowser_cssDetection_caps_confidence Examples.Edge_with_every_hook).
  vm_compute. auto.
Defined.

(** ** A user agent of Edge *)

(** When the user agent holds [edg], in any case of letters, a new
    instance answers Edge whatever the hooks, the vendor and the probes
    show: the vendor and the user-agent methods are listed, and the
    confidence is 0.7 or 0.85. *)
Theorem detectBrowser_edg_is_Edge :
  forall host : Host,
    includes (toLowerCase (nav_userAgent (navigator host))) "edg" = true ->
    let r := fst (detectBrowser constructor host) in
    browser r = Edge
    /\ In M_vendorDetection (detectionMethods r)
    /\ In M_userAgentDetection (detectionMethods r)
    /\ (confidence r = 0.7%float \/ confidence r = 0.85%float).
Proof.
  intros host Hedg. cbv zeta. rewrite detect_constructor.
  unfold detect_fresh. rewrite collect_constructor.
  assert (Hv : vendorDetection host = mkMethodResult Edge 0.9%float M_vendorDetection)
    by (unfold vendorDetection; now rewrite Hedg).
  assert (Hu : userAgentDetection host = mkMethodResult Edge 0.85%float M_userAgentDetection)
    by (unfold userAgentDetection; now rewrite Hedg).
  assert (Hc : cssDetection host = mkMethodResult Edge 0.7%float M_cssDetection
               \/ cssDetection host = mkMethodResult Unknown 0%float M_cssDetection).
  { unfold cssDetection. rewrite Hedg. cbn [orb].
    destruct (scratch_element (document host)); [now right | left].
    split_ifs; reflexivity. }
  rewrite Hv, Hu.
  pose proof (proj1 (method_result_outcome host M_apiDetection)) as Ha.
  cbn [method_result outcomes] in Ha. unfold apiDetection_outcomes in Ha.
  destruct Hc as [Hc|Hc]; rewrite Hc;
    repeat (destruct Ha as [<-|Ha]; [vm_compute; auto 10|]); destruct Ha.
Qed.

(** ** The evidence behind a candidate *)

(** The browser that [userAgentDetection] names has its token in the
    user agent: [edg] for Edge (or the Android case with [opr] and an
    empty vendor), and no [edg] for any other. *)
Theorem userAgentDetection_evidence :
  forall host : Host,
    userAgent_evidence (mr_browser (userAgentDetection host))
                       (toLowerCase (nav_userAgent (navigator host)))
                       (nav_vendor (navigator host)) = true.
Proof.
  intros host. unfold userAgentDetection. cbn zeta.
  set (ua := toLowerCase (nav_userAgent (navigator host))).
  set (vendor := nav_vendor (navigator host)).
  destruct (includes ua "edg") eqn:Eedg; [cbn; now rewrite Eedg|].
  rewrite (edge_needs_edg _ Eedg).
  unfold userAgent_evidence.
  destruct (includes ua "chrome"), (includes ua "opr"), (includes ua "crios"),
    (includes ua "safari"), (includes (toLowerCase vendor) "google"),
    (includes ua "android"), (includes ua "firefox"), (String.eqb vendor ""),
    (includes ua "fxios"), (includes ua "opera"), (includes ua "msie"),
    (includes ua "trident"); cbn; rewrite ?Eedg; reflexivity.
Qed.

(** The same for [vendorDetection]; its branch for "edge" at 0.8 is never
    taken, since a user agent with [edge] holds [edg]. *)
Theorem vendorDetection_evidence :
  forall host : Host,
    vendor_evidence (mr_browser (vendorDetection host))
                    (toLowerCase (nav_userAgent (navigator host)))
                    (toLowerCase (nav_vendor (navigator host))) = true
    /\ PrimFloat.eqb (mr_confidence (vendorDetection host)) 0.8
       && BrowserType_eqb (mr_browser (vendorDetection host)) Edge = false.
Proof.
  intros host. unfold vendorDetection. cbn zeta.
  set (ua := toLowerCase (nav_userAgent (navigator host))).
  set (vendor := toLowerCase (nav_vendor (navigator host))).
  destruct (includes ua "edg") eqn:Eedg; [cbn; rewrite Eedg; now split|].
  rewrite (edge_needs_edg _ Eedg).
  unfold vendor_evidence.
  destruct (includes vendor "google"), (includes vendor "apple"),
    (includes vendor "mozilla"), (String.eqb vendor ""), (includes ua "android"),
    (includes ua "chrome"), (includes ua "safari"); cbn; rewrite ?Eedg; split; reflexivity.
Qed.

(** The user agent of Edge on a host with the hooks of Chrome and Safari. *)
Lemma detectBrowser_edg_is_Edge_witness :
  let r := fst (detectBrowser constructor Examples.Edge_with_every_hook) in
  browser r = Edge
  /\ In M_vendorDetection (detectionMethods r)
  /\ In M_userAgentDetection (detectionMethods r)
  /\ (confidence r = 0.7%float \/ confidence r = 0.85%float).
Proof.
  apply (detectBrowser_edg_is_Edge Examples.Edge_with_every_hook).
  vm_compute. reflexivity.
Defined.

(** ** The class of the device *)

(** Without a keyword of a phone or a tablet in the user agent, exactly
    one of the three flags is set, by touch and the width of the window:
    touch up to 768 pixels is a phone, touch from 769 to 1024 pixels a
    tablet, anything else a desktop; [getPlatform] agrees. *)
Theorem device_class_without_keywords :
  forall host : Host,
    let ua := toLowerCase (nav_userAgent (navigator host)) in
    includes_some ua ["mobile"; "android"; "iphone"; "ipod"; "blackberry";
                      "windows phone"; "opera mini"; "iemobile"] = false ->
    includes_some ua ["ipad"; "tablet"; "playbook"; "silk"] = false ->
    let r := fst (detectBrowser constructor host) in
    exactly_one (isMobile r) (isTablet r) (isDesktop r) = true
    /\ isMobile r = hasTouch host && (innerWidth (window host) <=? 768)%Z
    /\ isTablet r = hasTouch host && (768 <? innerWidth (window host))%Z
                    && (innerWidth (window host) <=? 1024)%Z
    /\ getPlatform host = (if isMobile r then Mobile
                           else if isTablet r then Tablet else Desktop).
Proof.
  intros host ua Hm Ht r. subst r. rewrite detect_constructor.
  unfold detect_fresh. cbn [isMobile isTablet isDesktop].
  unfold getPlatform, detectMobile, detectTablet. fold ua. rewrite Hm, Ht. cbn [orb].
  destruct (hasTouch host); cbn [andb]; [|repeat split].
  destruct (Z.leb_spec (innerWidth (window host)) 768),
           (Z.ltb_spec 768 (innerWidth (window host))),
           (Z.leb_spec (innerWidth (window host)) 1024); try lia; repeat split.
Qed.

(** ** The version of the operating system *)

(** The field [osVersion] is "Unknown" or begins with the name of the
    family in [os]. *)
Theorem getOSInfo_osVersion_names_the_family :
  forall host : Host,
    String.eqb (oi_osVersion (getOSInfo host)) "Unknown"
    || prefix (OSType_name (oi_os (getOSInfo host))) (oi_osVersion (getOSInfo host))
    = true.
Proof.
  intros host. set (ua := toLowerCase (nav_userAgent (navigator host))).
  os_cascade ua.
  destruct (includes ua "win").
  { destruct (regexPatterns.windows ua) as [m|]; [|reflexivity]. split_ifs; reflexivity. }
  destruct (includes ua "mac").
  { destruct (regexPatterns.macos ua) as [m|]; [|reflexivity]. split_ifs; reflexivity. }
  destruct (includes ua "linux" || includes ua "x11"); [reflexivity|].
  destruct (includes ua "android").
  { destruct (regexPatterns.android ua) as [m|]; [|reflexivity].
    destruct (truthy m); reflexivity. }
  destruct (includes ua "iphone" || includes ua "ipad" || includes ua "ipod");
    [|reflexivity].
  destruct (regexPatterns.ios ua) as [m|]; [|reflexivity].
  destruct (truthy m); reflexivity.
Qed.

(** ** [getCompleteInfo] *)

(** On an empty cache [getCompleteInfo] returns the result of
    [detectBrowser] with the platform added, and leaves the instance as
    [detectBrowser] does; the platform is Desktop exactly when
    [isDesktop] is set. *)
Theorem getCompleteInfo_on_a_miss :
  forall (this : SmartBrowserDetection) (host : Host),
    JsMap.get String.eqb cacheKey (cache this) = None ->
    getCompleteInfo this host
    = (with_platform (getPlatform host) (fst (detectBrowser this host)),
       snd (detectBrowser this host))
    /\ (platform (fst (getCompleteInfo this host)) = Some Desktop <->
        isDesktop (fst (getCompleteInfo this host)) = true).
Proof.
  intros this host Hmiss. unfold getCompleteInfo, detectBrowser.
  rewrite (detectBrowserWith_miss runMethod this host Hmiss). cbn [fst snd].
  split.
  - unfold with_platform, detect_fresh. cbv zeta.
    destruct (0 <? _)%Z; reflexivity.
  - cbn [platform isDesktop with_platform]. unfold detect_fresh. cbn [isDesktop].
    unfold getPlatform.
    destruct (detectMobile host), (detectTablet host); cbn; split; congruence.
Qed.

(** A touch screen 1000 pixels wide on a user agent of Edge for Windows
    is a tablet. *)
Lemma device_class_without_keywords_witness :
  isTablet (fst (detectBrowser constructor touch_laptop)) = true
  /\ exactly_one (isMobile (fst (detectBrowser constructor touch_laptop)))
                 (isTablet (fst (detectBrowser constructor touch_laptop)))
                 (isDesktop (fst (detectBrowser constructor touch_laptop))) = true
  /\ getPlatform touch_laptop = Tablet.
Proof.
  destruct (device_class_without_keywords touch_laptop eq_refl eq_refl)
    as (H1 & _ & H3 & H4).
  split; [rewrite H3; reflexivity|]. split; [exact H1|].
  rewrite H4. reflexivity.
Defined.

(** A new instance on the iPad. *)
Lemma getCompleteInfo_on_a_miss_witness :
  getCompleteInfo constructor Examples.iPad
  = (with_platform (getPlatform Examples.iPad)
                   (fst (detectBrowser constructor Examples.iPad)),
     snd (detectBrowser constructor Examples.iPad))
  /\ (platform (fst (getCompleteInfo constructor Examples.iPad)) = Some Desktop <->
      isDesktop (fst (getCompleteInfo constructor Examples.iPad)) = true).
Proof.
  apply (getCompleteInfo_on_a_miss constructor Examples.iPad). reflexivity.
Defined.

(** ** Sequences of calls *)

Lemma detect_fresh_methods this host :
  methods this = methods constructor ->
  detect_fresh runMethod this host = detect_fresh runMethod constructor host.
Proof. intros H. unfold detect_fresh, collect. now rewrite H. Qed.

Lemma getCompleteInfo_instance this host :
  snd (getCompleteInfo this host) = snd (detectBrowser this host).
Proof. unfold getCompleteInfo. now destruct (detectBrowser this host). Qed.

Lemma detectBrowser_cache_of hs t h :
  methods t = methods constructor -> cache t = cache_of hs ->
  methods (snd (detectBrowser t h)) = methods constructor
  /\ cache (snd (detectBrowser t h)) = cache_of (hs ++ [h]).
Proof.
  intros Hm Hc. unfold detectBrowser, detectBrowserWith. rewrite Hc.
  destruct hs as [|h0 hs]; cbn; (split; [exact Hm|]).
  - now rewrite (detect_fresh_methods t h Hm).
  - exact Hc.
Qed.

Lemma run_calls_invariant cs :
  methods (run_calls constructor cs) = methods constructor
  /\ cache (run_calls constructor cs) = cache_of (hosts_since_clear cs).
Proof.
  induction cs as [|[k h] cs [IHm IHc]] using rev_ind.
  - split; reflexivity.
  - unfold run_calls, hosts_since_clear. rewrite !fold_left_app. cbn [fold_left fst snd].
    fold (run_calls constructor cs). fold (hosts_since_clear cs).
    destruct k; unfold call; cbn [fst snd].
    + now apply detectBrowser_cache_of.
    + rewrite getCompleteInfo_instance. now apply detectBrowser_cache_of.
    + split; [exact IHm|reflexivity].
Qed.

(** After any sequence of calls of [detectBrowser], [getCompleteInfo] and
    [clearCache] on a new instance, on hosts that may differ, the cache
    holds no entry or the one key [browser_detection], and the next
    [detectBrowser] returns what a new instance computes on the host of
    the first detection since the last [clearCache], or on the present
    host when there was none. *)
Theorem run_calls_cache :
  forall (cs : list (Call * Host)) (host : Host),
    let t := run_calls constructor cs in
    getCacheStats t
    = match hosts_since_clear cs with
      | [] => {| size := 0; keys := [] |}
      | _ :: _ => {| size := 1; keys := ["browser_detection"] |}
      end
    /\ fst (detectBrowser t host)
       = fst (detectBrowser constructor (List.hd host (hosts_since_clear cs))).
Proof.
  intros cs host t. destruct (run_calls_invariant cs) as [Hm Hc]. fold t in Hm, Hc.
  unfold getCacheStats, detectBrowser, detectBrowserWith. rewrite Hc.
  destruct (hosts_since_clear cs) as [|h hs]; cbn; split; try reflexivity.
  apply (detect_fresh_methods t host Hm).
Qed.

(** The loop of [performanceMonitoring] and of the benchmark: every
    iteration returns the result of the first one, and the instance
    after the loop is the instance after the first call. *)
Theorem detectBrowser_each_repeats :
  forall (this : SmartBrowserDetection) (host : Host) (hosts : list Host),
    detectBrowser_each this (host :: hosts)
    = (List.repeat (fst (detectBrowser this host)) (S (List.length hosts)),
       snd (detectBrowser this host)).
Proof.
  intros this host hosts. cbn [detectBrowser_each].
  destruct (detectBrowser this host) as [r t] eqn:E. cbn [fst snd].
  assert (H : JsMap.get String.eqb cacheKey (cache t) = Some r).
  { pose proof (detectBrowserWith_fills runMethod this host) as F.
    fold (detectBrowser this host) in F. now rewrite E in F. }
  clear E.
  assert (G : forall hs, detectBrowser_each t hs = (List.repeat r (List.length hs), t)).
  { induction hs as [|h hs IH]; [reflexivity|]. cbn [detectBrowser_each].
    unfold detectBrowser at 1. rewrite (detectBrowserWith_hit runMethod t h r H).
    now rewrite IH. }
  now rewrite G.
Qed.

(** [getCompleteInfo] after [detectBrowser]: the browser, the flags, the
    confidence, the methods and the time stamp are those of the cached
    result, while the version, the engine, the platform, the operating
    system, the user agent and the vendor are read from the host as it
    is at the second call. *)
Theorem getCompleteInfo_after_detectBrowser :
  forall (this : SmartBrowserDetection) (host1 host2 : Host),
    let d := fst (detectBrowser this host1) in
    let t := snd (detectBrowser this host1) in
    getCompleteInfo t host2
    = ({| browser := browser d;
          browserVersion := getBrowserVersion host2 (browser d);
          engine := ei_engine (getEngineInfo host2 (browser d));
          engineVersion := getBrowserVersion host2 (browser d);
          platform := Some (getPlatform host2);
          os := oi_os (getOSInfo host2);
          osVersion := oi_osVersion (getOSInfo host2);
          isMobile := isMobile d; isTablet := isTablet d; isDesktop := isDesktop d;
          confidence := confidence d; detectionMethods := detectionMethods d;
          userAgent := nav_userAgent (navigator host2);
          vendor := nav_vendor (navigator host2);
          timestamp := timestamp d |}, t).
Proof.
  intros this host1 host2 d t.
  pose proof (detectBrowserWith_fills runMethod this host1) as F.
  fold (detectBrowser this host1) in F. fold d t in F.
  unfold getCompleteInfo, detectBrowser at 1.
  rewrite (detectBrowserWith_hit runMethod t host2 d F).
  f_equal. f_equal. now destruct (browser d).
Qed.

(** ** The engine *)

Lemma run_calls_result (cs : list (Call * Host)) (host : Host) :
  exists h, fst (detectBrowser (run_calls constructor cs) host)
            = detect_fresh runMethod constructor h.
Proof.
  destruct (run_calls_invariant cs) as [Hm Hc].
  unfold detectBrowser, detectBrowserWith. rewrite Hc.
  destruct (hosts_since_clear cs) as [|h hs]; cbn.
  - exists host. apply (detect_fresh_methods _ host Hm).
  - now exists h.
Qed.

(** What is reported as the version of the engine is the version of the
    browser: after any sequence of calls on a new instance, the results
    of [detectBrowser] and of [getCompleteInfo] have [engineVersion]
    equal to [browserVersion], and the engine of [detectBrowser]'s
    result is Blink exactly for Chrome, Edge and Opera. *)
Theorem engineVersion_is_browserVersion :
  forall (cs : list (Call * Host)) (host : Host),
    let t := run_calls constructor cs in
    let r := fst (detectBrowser t host) in
    engineVersion r = browserVersion r
    /\ engineVersion (fst (getCompleteInfo t host))
       = browserVersion (fst (getCompleteInfo t host))
    /\ (engine r = Blink <-> browser r = Chrome \/ browser r = Edge \/ browser r = Opera).
Proof.
  intros cs host t r. subst r t. split; [|split].
  - destruct (run_calls_result cs host) as [h ->].
    unfold detect_fresh. cbn [engineVersion browserVersion].
    match goal with |- context [getEngineInfo h ?b] => now destruct b end.
  - unfold getCompleteInfo.
    destruct (detectBrowser (run_calls constructor cs) host) as [d t'].
    cbn [fst engineVersion browserVersion]. now destruct (browser d).
  - destruct (run_calls_result cs host) as [h ->].
    unfold detect_fresh. cbn [engine browser].
    match goal with |- context [getEngineInfo h ?b] => destruct b end;
      cbn; split; intros H; auto; try discriminate;
      destruct H as [H|[H|H]]; discriminate.
Qed.

(** ** The second copy: the last resort of the version *)

(** Chrome for iOS asked for the version of Firefox: the patterns of
    Firefox give nothing and the first dotted number, "5.0", is
    returned. *)
Lemma SecondCopy_getBrowserVersion_last_resort_witness :
  SecondCopy.getBrowserVersion Chrome_on_iPhone Firefox = "5.0".
Proof.
  rewrite (SecondCopy_getBrowserVersion_last_resort Chrome_on_iPhone Firefox);
    reflexivity.
Defined.
